(** * AutoBlog-AI backend: a shallow embedding of the run orchestrator,
      the content-discovery chain and the CMS / rewrite collaborators.

    Python values are modelled as follows.
    - [str] is [string]; the embedding covers ASCII text (code points
      below 128), on which [str.strip], [str.title], [\d] and [int] have
      the behaviour written out in [Module Str].
    - [int] is [Z].
    - [dict] with string keys is [gmap string _].
    - A call that may raise returns [Py.result]; [try]/[except]/[finally]
      are written out by case analysis on it.
    - Module-level mutable state and the outside world (clock, uuid
      source, hub) are threaded explicitly through a [World] record. *)

From Stdlib Require Import ZArith Ascii String DecimalString.
From stdpp Require Import base option list gmap strings sorting pretty.

Local Open Scope Z_scope.

(* ===================================================================== *)
(** ** Exceptions and fallible computations                               *)
(* ===================================================================== *)

Module Py.

(** The exception classes the modelled code can meet.  [CancelledError]
    and [KeyboardInterrupt] derive from [BaseException] only, the others
    from [Exception]. *)
Inductive exc_class : Type :=
  | KeyError
  | IndexError
  | TypeError
  | ValueError
  | ConnectError
  | RuntimeError
  | CancelledError
  | KeyboardInterrupt.

(** An exception instance: its class and [str(e)]. *)
Record exn : Type := Exn { exn_class : exc_class; exn_str : string }.

(** [isinstance(e, Exception)]: what an [except Exception] clause catches. *)
Definition is_Exception (e : exn) : bool :=
  match exn_class e with
  | CancelledError | KeyboardInterrupt => false
  | _ => true
  end.

Inductive result (A : Type) : Type :=
  | Returned (a : A)
  | Raised (e : exn).
Arguments Returned {A} a.
Arguments Raised {A} e.

Definition bind {A B : Type} (m : result A) (k : A -> result B) : result B :=
  match m with
  | Returned a => k a
  | Raised e => Raised e
  end.

(** [not txt] for [txt : Optional[str]]: [None] and the empty string
    are falsy. *)
Definition falsy (txt : option string) : bool :=
  match txt with
  | None => true
  | Some s => bool_decide (s = EmptyString)
  end.

(** [l[i]] for [i >= 0] and [l[-1]]. *)
Definition getitem {A : Type} (l : list A) (i : nat) : result A :=
  match l !! i with
  | Some a => Returned a
  | None => Raised (Exn IndexError "list index out of range")
  end.

Definition getitem_last {A : Type} (l : list A) : result A :=
  match last l with
  | Some a => Returned a
  | None => Raised (Exn IndexError "list index out of range")
  end.

(** [d[key]] on a dict with string keys; [str(KeyError(key))] is the
    key's [repr]. *)
Definition dict_getitem {V : Type} (d : gmap string V) (key : string) : result V :=
  match d !! key with
  | Some v => Returned v
  | None => Raised (Exn KeyError (String.append "'" (String.append key "'")))
  end.

(** [d.pop(key)] ([has_default = false]) and [d.pop(key, None)]
    ([has_default = true]): the value popped, [None] for the default,
    and the dict afterwards. *)
Definition dict_pop {V : Type} (d : gmap string V) (key : string)
    (has_default : bool) : result (option V * gmap string V) :=
  match d !! key with
  | Some v => Returned (Some v, delete key d)
  | None =>
      if has_default then Returned (None, d)
      else Raised (Exn KeyError (String.append "'" (String.append key "'")))
  end.

End Py.

#[global] Instance result_ret : MRet Py.result := @Py.Returned.
#[global] Instance result_bind : MBind Py.result :=
  fun A B k m => Py.bind m k.

(* ===================================================================== *)
(** ** The [str] methods used by the scraper                              *)
(* ===================================================================== *)

Module Str.

Definition code (c : ascii) : nat := nat_of_ascii c.

(** [str.isspace] on one ASCII character: TAB..CR, FS..US and space. *)
Definition isspace (c : ascii) : bool :=
  let n := code c in
  ((9 <=? n)%nat && (n <=? 13)%nat) || ((28 <=? n)%nat && (n <=? 32)%nat).

Definition isdigit (c : ascii) : bool :=
  let n := code c in (48 <=? n)%nat && (n <=? 57)%nat.

Definition isupper (c : ascii) : bool :=
  let n := code c in (65 <=? n)%nat && (n <=? 90)%nat.

Definition islower (c : ascii) : bool :=
  let n := code c in (97 <=? n)%nat && (n <=? 122)%nat.

Definition upper (c : ascii) : ascii :=
  if islower c then ascii_of_nat (code c - 32) else c.

Definition lower (c : ascii) : ascii :=
  if isupper c then ascii_of_nat (code c + 32) else c.

Fixpoint lstrip (s : string) : string :=
  match s with
  | EmptyString => EmptyString
  | String c s' => if isspace c then lstrip s' else s
  end.

Definition rstrip (s : string) : string :=
  String.rev (lstrip (String.rev s)).

(** [s.strip()] *)
Definition strip (s : string) : string := rstrip (lstrip s).

(** [s.split(sep)] for a one-character separator; [cur] is the current
    piece, reversed.  The result is never empty. *)
Fixpoint split_go (sep : ascii) (cur : string) (s : string) : list string :=
  match s with
  | EmptyString => [String.rev cur]
  | String c s' =>
      if Ascii.eqb c sep
      then String.rev cur :: split_go sep EmptyString s'
      else split_go sep (String c cur) s'
  end.

Definition split (sep : ascii) (s : string) : list string :=
  split_go sep EmptyString s.

(** [s.replace(a, b)] for one-character [a] and [b]. *)
Fixpoint replace (a b : ascii) (s : string) : string :=
  match s with
  | EmptyString => EmptyString
  | String c s' => String (if Ascii.eqb c a then b else c) (replace a b s')
  end.

(** [s.title()]: a cased character is upper-cased when the previous
    character is not cased and lower-cased when it is. *)
Fixpoint title_go (previous_is_cased : bool) (s : string) : string :=
  match s with
  | EmptyString => EmptyString
  | String c s' =>
      let cased := isupper c || islower c in
      String (if previous_is_cased then lower c else upper c)
             (title_go cased s')
  end.

Definition title (s : string) : string := title_go false s.

(** The longest prefix of decimal digits and what follows it. *)
Fixpoint span_digits (s : string) : string * string :=
  match s with
  | EmptyString => (EmptyString, EmptyString)
  | String c s' =>
      if isdigit c
      then let '(ds, rest) := span_digits s' in (String c ds, rest)
      else (EmptyString, s)
  end.

Definition digit_value (c : ascii) : Z := Z.of_nat (code c - 48).

Fixpoint int_go (acc : Z) (s : string) : Z :=
  match s with
  | EmptyString => acc
  | String c s' => int_go (10 * acc + digit_value c) s'
  end.

(** [sys.get_int_max_str_digits()]: CPython's default cap on the length
    of a digit string handed to [int] (3.11 and the security releases of
    the earlier branches). *)
Definition int_max_str_digits : nat := 4300.

(** [int(s)] for a non-empty string of decimal digits: its value, or
    [ValueError] when it has more digits than the cap. *)
Definition int (s : string) : Py.result Z :=
  if (int_max_str_digits <? String.length s)%nat then
    Py.Raised
      (Py.Exn Py.ValueError
         (String.append "Exceeds the limit (4300 digits) for integer string conversion: value has "
            (String.append (pretty (String.length s))
               " digits; use sys.set_int_max_str_digits() to increase the limit")))
  else Py.Returned (int_go 0 s).

(** [s[len(p):]] when [s.startswith(p)]. *)
Fixpoint strip_prefix (p s : string) : option string :=
  match p, s with
  | EmptyString, _ => Some s
  | String a p', String b s' =>
      if Ascii.eqb a b then strip_prefix p' s' else None
  | String _ _, EmptyString => None
  end.

(** [sep.join(ws)] *)
Fixpoint join (sep : string) (ws : list string) : string :=
  match ws with
  | [] => EmptyString
  | [w] => w
  | w :: ws' => String.append w (String.append sep (join sep ws'))
  end.

Fixpoint lower_all (s : string) : string :=
  match s with
  | EmptyString => EmptyString
  | String c s' => String (lower c) (lower_all s')
  end.

(** [w.capitalize()]: the first character upper-cased, the rest
    lower-cased. *)
Definition capitalize (w : string) : string :=
  match w with
  | EmptyString => EmptyString
  | String c w' => String (upper c) (lower_all w')
  end.

(** A non-empty run of ASCII letters. *)
Definition isalpha (c : ascii) : bool := isupper c || islower c.

Definition is_word (w : string) : Prop :=
  w <> EmptyString /\ Forall (fun c => isalpha c = true) (list_ascii_of_string w).

(** [needle in hay] *)
Definition contains (hay needle : string) : Prop :=
  exists before after, hay = String.append before (String.append needle after).

(** The characters of a string. *)
Definition chars (s : string) : list ascii := list_ascii_of_string s.

End Str.

(* ===================================================================== *)
(** ** app/scraper/sitemap.py                                             *)
(* ===================================================================== *)

Module Sitemap.

(** The source text of the compiled pattern [POST_PATTERN]. *)
Definition POST_PATTERN : string :=
  "(post|article|news)(-sitemap)?(\d*)\.xml$".

(** The third group and the anchored suffix: the digits are taken
    greedily (backtracking to fewer digits cannot help, a digit is not
    a dot); the dollar matches at the end of the string or before a
    final newline.  Returns group 3. *)
Definition match_tail (s : string) : option string :=
  let '(ds, rest) := Str.span_digits s in
  if bool_decide (rest = ".xml"%string)
     || bool_decide (rest = String.append ".xml" (String "010"%char EmptyString))
  then Some ds else None.

(** The optional second group followed by the tail: the group is tried
    first, and skipped when the match fails with it. *)
Definition match_after_word (s : string) : option string :=
  match Str.strip_prefix "-sitemap" s with
  | Some r =>
      match match_tail r with
      | Some g => Some g
      | None => match_tail s
      end
  | None => match_tail s
  end.

(** The alternation, tried left to right. *)
Fixpoint match_words (ws : list string) (s : string) : option string :=
  match ws with
  | [] => None
  | w :: ws' =>
      match Str.strip_prefix w s with
      | Some r =>
          match match_after_word r with
          | Some g => Some g
          | None => match_words ws' s
          end
      | None => match_words ws' s
      end
  end.

Definition POST_PATTERN_match (s : string) : option string :=
  match_words ["post"; "article"; "news"]%string s.

(** [POST_PATTERN.search(s)]: the leftmost position at which the
    pattern matches; the value is [m.group(3)]. *)
Fixpoint POST_PATTERN_search (s : string) : option string :=
  match POST_PATTERN_match s with
  | Some g => Some g
  | None =>
      match s with
      | EmptyString => None
      | String _ s' => POST_PATTERN_search s'
      end
  end.

(** The shape of a string the pattern matches at its start: one of the
    three words, optionally [-sitemap], the digits of group 3, [.xml],
    and the end of the string (or a final newline). *)
Definition matches_here (s g3 : string) : Prop :=
  exists word opt nl,
    s = String.append word (String.append opt (String.append g3 (String.append ".xml" nl)))
    /\ word ∈ ["post"; "article"; "news"]%string
    /\ opt ∈ [EmptyString; "-sitemap"%string]
    /\ nl ∈ [EmptyString; String "010" EmptyString]
    /\ Forall (fun c => Str.isdigit c = true) (Str.chars g3).

(** The value of a string of decimal digits, read as the Standard
    Library reads a decimal numeral. *)
Definition decimal_value (ds : string) : Z :=
  match NilEmpty.uint_of_string ds with
  | Some u => Z.of_nat (Nat.of_uint u)
  | None => 0
  end.

(** The numeric suffix of an entry whose digits before [.xml] are [ds]:
    their decimal value, and 1 for an entry without a number. *)
Definition suffix_number (ds : string) : Z :=
  if bool_decide (ds = EmptyString) then 1 else decimal_value ds.

End Sitemap.

(** What [httpx.AsyncClient.get] can do: answer with a status code and a
    body, or raise (connection refused, timeout, ...). *)
Inductive HttpOutcome : Type :=
  | Response (status_code : Z) (text : string)
  | HttpRaises (e : Py.exn).

(** The record every discovery strategy returns:
    [{"url": ..., "source": ..., "title": ...}]. *)
Record Article : Type := mkArticle {
  art_url : string;
  art_source : string;
  art_title : string
}.

#[global] Instance Article_eq_dec : EqDecision Article.
Proof. solve_decision. Defined.

Module Discover.

(** [(num, loc)] tuples compare lexicographically; [tuple_ge a b] is
    Python's [a >= b], the order [sort(reverse=True)] produces. *)
Definition tuple_ge (a b : Z * string) : Prop :=
  a.1 > b.1 \/ (a.1 = b.1 /\ String.le b.2 a.2).

#[global] Instance tuple_ge_dec : RelDecision tuple_ge.
Proof. intros a b. unfold tuple_ge. apply _. Defined.

(** [candidates.sort(reverse=True)] *)
Definition sort_reverse (candidates : list (Z * string)) : list (Z * string) :=
  merge_sort tuple_ge candidates.

(** [int(m.group(3) or 1)]: the digits before [.xml], or 1 when there
    are none; [int] may raise. *)
Definition number_of (g3 : string) : Py.result Z :=
  if bool_decide (g3 = EmptyString) then mret 1 else Str.int g3.

(** The loop body over one [<loc>] tag text: [loc = tag.text.strip()],
    [m = POST_PATTERN.search(loc)], [num = int(m.group(3) or 1)]: the
    tuple to append, if any. *)
Definition candidate_of (tag_text : string) : Py.result (option (Z * string)) :=
  let loc := Str.strip tag_text in
  match Sitemap.POST_PATTERN_search loc with
  | Some g3 => num ← number_of g3; mret (Some (num, loc))
  | None => mret None
  end.

(** The loop [for tag in sitemap_tags: ...] that fills [candidates], in
    document order; an exception of the body ends it. *)
Fixpoint collect_candidates (sitemap_tags : list string) : Py.result (list (Z * string)) :=
  match sitemap_tags with
  | [] => mret []
  | tag :: rest =>
      c ← candidate_of tag;
      candidates ← collect_candidates rest;
      mret (match c with Some x => x :: candidates | None => candidates end)
  end.

(** The tuple a tag contributes when the loop body does not raise. *)
Definition appended (tag_text : string) : option (Z * string) :=
  match candidate_of tag_text with
  | Py.Returned c => c
  | Py.Raised _ => None
  end.

(** [latest_post_url.split("/")[-1].replace("-", " ").title()] *)
Definition title_of (latest_post_url : string) : string :=
  Str.title
    (Str.replace "-"%char " "%char
       (List.last (Str.split "/"%char latest_post_url) EmptyString)).

Section WithWeb.

(** The web as the scraper meets it: the answer to the [k]-th request
    of the session, made to [url]. *)
Variable http_get : nat -> string -> HttpOutcome.

(** [BeautifulSoup(txt, "xml").find_all("loc")], as the list of the
    tags' [.text], in document order (bs4 and lxml are external). *)
Variable loc_texts : string -> list string.

(** [fetch(url)]: the body on status 200, [None] otherwise; an
    exception of the client is not caught. *)
Definition fetch (k : nat) (url : string) : Py.result (option string) :=
  match http_get k url with
  | Response status_code text =>
      if bool_decide (status_code = 200) then Py.Returned (Some text)
      else Py.Returned None
  | HttpRaises e => Py.Raised e
  end.

(** [BeautifulSoup(markup, "xml").find_all("loc")]: the constructor
    takes [len(markup)] and raises [TypeError] on [None]. *)
Definition soup_find_all_loc (markup : option string) : Py.result (list string) :=
  match markup with
  | Some txt => Py.Returned (loc_texts txt)
  | None =>
      Py.Raised (Py.Exn Py.TypeError "object of type 'NoneType' has no len()")
  end.

(** [discover_latest_from_sitemap(url)], started when [k] requests
    have been made. *)
Definition discover_latest_from_sitemap (k : nat) (url : string)
  : Py.result (option Article) :=
  (* Step 1: the sitemap index *)
  txt ← fetch k url;
  if Py.falsy txt then mret None else
  sitemap_tags ← soup_find_all_loc txt;
  candidates ← collect_candidates sitemap_tags;
  if bool_decide (candidates = []) then mret None else
  (* Step 2: the highest number *)
  c0 ← Py.getitem (sort_reverse candidates) 0;
  let latest_url := c0.2 in
  (* Step 3: the latest sitemap *)
  sitemap_xml ← fetch (S k) latest_url;
  urls ← soup_find_all_loc sitemap_xml;
  if bool_decide (urls = []) then mret None else
  tag ← Py.getitem_last urls;
  let latest_post_url := Str.strip tag in
  mret (Some {| art_url := latest_post_url;
                art_source := latest_url;
                art_title := title_of latest_post_url |}).

End WithWeb.

End Discover.

(* ===================================================================== *)
(** ** app/routes/source.py                                               *)
(* ===================================================================== *)

Module Source.

(** The discovery strategies, in the order [test_source] names them. *)
Inductive Strategy : Type := Sitemap_strategy | Rss_strategy | Html_strategy.

#[global] Instance Strategy_eq_dec : EqDecision Strategy.
Proof. solve_decision. Defined.

Definition method_name (m : Strategy) : string :=
  match m with
  | Sitemap_strategy => "sitemap"
  | Rss_strategy => "rss"
  | Html_strategy => "html"
  end.

(** The dict a strategy's record stands for. *)
Definition article_dict (a : Article) : gmap string string :=
  <["url" := art_url a]>
    (<["source" := art_source a]> (<["title" := art_title a]> ∅)).

(** [{"method": m, **result}]: the keys of [result] come later and win. *)
Definition tagged (m : Strategy) (a : Article) : gmap string string :=
  article_dict a ∪ {["method" := method_name m]}.

Definition not_found : gmap string string :=
  {["error" := "Failed to detect article"]}.

Section WithStrategies.

Variable http_get : nat -> string -> HttpOutcome.
Variable loc_texts : string -> list string.

(** Modelled from the spec: the two strategies of app/scraper/rss.py
    and app/scraper/html_scraper.py, which are not among the sources.
    Section 6 gives their interface: for a source URL, the record
    [{ articleUrl, sourceLocator, title }] or "not found"; like any
    call they may raise. *)
Variable discover_from_rss : string -> Py.result (option Article).
Variable discover_from_html : string -> Py.result (option Article).

(** [test_source(payload)], started when [k] requests have been made.
    The first component lists the strategies that were invoked, in
    order; the three-key record of a strategy is a non-empty dict, so
    [if result:] holds exactly when the strategy found an article. *)
Definition test_source (k : nat) (payload : gmap string string)
  : list Strategy * Py.result (gmap string string) :=
  match Py.dict_getitem payload "url" with
  | Py.Raised e => ([], Py.Raised e)
  | Py.Returned url =>
      (* Try Sitemap *)
      match Discover.discover_latest_from_sitemap http_get loc_texts k url with
      | Py.Raised e => ([Sitemap_strategy], Py.Raised e)
      | Py.Returned (Some result) =>
          ([Sitemap_strategy], Py.Returned (tagged Sitemap_strategy result))
      | Py.Returned None =>
          (* Try RSS *)
          match discover_from_rss url with
          | Py.Raised e => ([Sitemap_strategy; Rss_strategy], Py.Raised e)
          | Py.Returned (Some result) =>
              ([Sitemap_strategy; Rss_strategy],
               Py.Returned (tagged Rss_strategy result))
          | Py.Returned None =>
              (* Fallback HTML *)
              match discover_from_html url with
              | Py.Raised e =>
                  ([Sitemap_strategy; Rss_strategy; Html_strategy], Py.Raised e)
              | Py.Returned (Some result) =>
                  ([Sitemap_strategy; Rss_strategy; Html_strategy],
                   Py.Returned (tagged Html_strategy result))
              | Py.Returned None =>
                  ([Sitemap_strategy; Rss_strategy; Html_strategy],
                   Py.Returned not_found)
              end
          end
      end
  end.

End WithStrategies.

End Source.

(* ===================================================================== *)
(** ** app/routes/cms.py                                                  *)
(* ===================================================================== *)

Module Cms.

Section WithClient.

(** A decoded JSON value (the category list of the CMS). *)
Variable Json : Type.

(** [client.get(url, auth=auth)]. *)
Variable client_get : string -> string * string -> HttpOutcome.

(** [r.json()] on a response body: the decoded value, or the
    decoder's exception. *)
Variable json : string -> Py.result Json.

(** The two dicts the endpoint returns:
    [{"success": True, "categories": c}] and
    [{"success": False, "message": m}]. *)
Inductive VerifyResult : Type :=
  | Verified (categories : Json)
  | NotVerified (message : string).

Definition success (r : VerifyResult) : bool :=
  match r with Verified _ => true | NotVerified _ => false end.

Definition message (r : VerifyResult) : option string :=
  match r with Verified _ => None | NotVerified m => Some m end.

Definition categories (r : VerifyResult) : option Json :=
  match r with Verified c => Some c | NotVerified _ => None end.

(** The body of the [try] block. *)
Definition verify_try (base_url : string) (auth : string * string)
  : Py.result VerifyResult :=
  match client_get (String.append base_url "/wp-json/wp/v2/categories") auth with
  | HttpRaises e => Py.Raised e
  | Response status_code text =>
      if bool_decide (status_code = 200) then
        c ← json text; mret (Verified c)
      else mret (NotVerified text)
  end.

(** [verify_connection(payload)]: the three lookups stand before the
    [try]; [except Exception] answers with [str(e)]. *)
Definition verify_connection (payload : gmap string string)
  : Py.result VerifyResult :=
  base_url ← Py.dict_getitem payload "url";
  user ← Py.dict_getitem payload "username";
  app_password ← Py.dict_getitem payload "password";
  let auth := (user, app_password) in
  match verify_try base_url auth with
  | Py.Returned r => Py.Returned r
  | Py.Raised e =>
      if Py.is_Exception e then Py.Returned (NotVerified (Py.exn_str e))
      else Py.Raised e
  end.

End WithClient.

Arguments Verified {Json} categories.
Arguments NotVerified {Json} message.
Arguments success {Json} r.
Arguments message {Json} r.
Arguments categories {Json} r.

End Cms.

(* ===================================================================== *)
(** ** utils/logger.py (the AI processor)                                 *)
(* ===================================================================== *)

Module Rewrite.

Section WithGenai.

(** [genai.GenerativeModel("gemini-pro").generate_content(prompt).text] *)
Variable generate_content : string -> Py.result string.

(** [str(max_words)] as the f-string formats it. *)
Definition format_int (n : Z) : string := pretty n.

Definition prompt (text : string) (max_words : Z) : string :=
  String.append "
Rewrite the following article in simple English, max "
    (String.append (format_int max_words)
       (String.append " words.
Add 3-5 bullet points summary at top.
Keep HTML clean.

" (String.append text "
"))).

(** [rewrite_content_gemini(text, max_words)]; [GEN_API_KEY] is the
    value [os.getenv] gave at import, [None] when the variable is
    unset.  [not GEN_API_KEY] holds for [None] and for the empty
    string. *)
Definition rewrite_content_gemini (GEN_API_KEY : option string)
    (text : string) (max_words : Z) : Py.result string :=
  if Py.falsy GEN_API_KEY then mret text   (* Fail-safe: return raw *)
  else generate_content (prompt text max_words).

End WithGenai.

End Rewrite.

(* ===================================================================== *)
(** ** Log events and the broadcast hub                                   *)
(* ===================================================================== *)

Inductive Level : Type := INFO | SUCCESS | ERROR.

#[global] Instance Level_eq_dec : EqDecision Level.
Proof. solve_decision. Defined.

(** The dict passed to [ws_manager.send]:
    [{"ts": ..., "level": ..., "text": ...}]. *)
Record LogEvent : Type := mkEvent {
  ts : Z;
  level : Level;
  text : string
}.

#[global] Instance LogEvent_eq_dec : EqDecision LogEvent.
Proof. solve_decision. Defined.

Module Hub.

(** Modelled from the spec: what a subscriber of the hub is handed
    (section 4.2 and the glossary): a log event, or the terminal marker
    of [closeRun]. *)
Inductive Message : Type :=
  | Event (e : LogEvent)
  | TerminalMarker.

(** Modelled from the spec: one subscription of section 3: the run it
    listens to, the bounded buffer of messages not read yet (oldest
    first) and the messages read so far. *)
Record Subscription : Type := mkSub {
  sub_run : string;
  pending : list Message;
  received : list Message
}.

(** Modelled from the spec: the hub object [ws_manager] of
    app/ws_manager.py, which is not among the sources.  Section 4.2:
    a channel set of subscriber handles per run id, a bounded buffer
    per subscriber, the set of closed runs.  A handle is the identity
    of the connection's WebSocket object, numbered in order of arrival. *)
Record t : Type := mkHub {
  capacity : nat;
  channels : gmap string (list nat);
  closed : gset string;
  subs : gmap nat Subscription;
  next_handle : nat
}.

Definition empty (cap : nat) : t :=
  {| capacity := cap; channels := ∅; closed := ∅; subs := ∅; next_handle := 0 |}.

(** Modelled from the spec: the per-subscriber buffer of section 4.2,
    "on overflow, the policy is to drop the oldest buffered event". *)
Definition push (cap : nat) (m : Message) (buf : list Message) : list Message :=
  let b := buf ++ [m] in drop (length b - cap) b.

Definition deliver (cap : nat) (m : Message) (hd : nat)
    (ss : gmap nat Subscription) : gmap nat Subscription :=
  alter (fun s => {| sub_run := sub_run s;
                     pending := push cap m (pending s);
                     received := received s |}) hd ss.

Definition deliver_all (cap : nat) (m : Message) (hds : list nat)
    (ss : gmap nat Subscription) : gmap nat Subscription :=
  foldr (deliver cap m) ss hds.

(** Modelled from the spec: [publish(id, event)] of section 4.2, called
    [ws_manager.send(run_id, event)] in main.py: the event goes to every
    handle currently registered for the run; a closed run gets no
    further events. *)
Definition send (run_id : string) (ev : LogEvent) (h : t) : t :=
  if bool_decide (run_id ∈ closed h) then h
  else
    {| capacity := capacity h;
       channels := channels h;
       closed := closed h;
       subs := deliver_all (capacity h) (Event ev)
                 (default [] (channels h !! run_id)) (subs h);
       next_handle := next_handle h |}.

(** Modelled from the spec: [subscribe(id)] of section 4.2, called
    [ws_manager.connect(run_id, websocket)] in main.py: it succeeds for
    any id; after [closeRun] the new subscription immediately gets the
    terminal marker and is not registered for further events. *)
Definition connect (run_id : string) (h : t) : nat * t :=
  let hd := next_handle h in
  if bool_decide (run_id ∈ closed h) then
    (hd,
     {| capacity := capacity h;
        channels := channels h;
        closed := closed h;
        subs := <[hd := {| sub_run := run_id;
                           pending := push (capacity h) TerminalMarker [];
                           received := [] |}]> (subs h);
        next_handle := S hd |})
  else
    (hd,
     {| capacity := capacity h;
        channels := <[run_id := default [] (channels h !! run_id) ++ [hd]]> (channels h);
        closed := closed h;
        subs := <[hd := {| sub_run := run_id; pending := []; received := [] |}]> (subs h);
        next_handle := S hd |}).

(** Modelled from the spec: [unsubscribe(handle)] of section 4.2, called
    [ws_manager.disconnect(run_id, websocket)] in main.py; idempotent. *)
Definition disconnect (run_id : string) (hd : nat) (h : t) : t :=
  {| capacity := capacity h;
     channels := alter (filter (fun x => x ≠ hd)) run_id (channels h);
     closed := closed h;
     subs := subs h;
     next_handle := next_handle h |}.

(** Modelled from the spec: [closeRun(id)] of section 4.2: marks the
    channel set closed, delivers the terminal marker to every current
    subscriber and releases the channel-set entry. *)
Definition closeRun (run_id : string) (h : t) : t :=
  if bool_decide (run_id ∈ closed h) then h
  else
    {| capacity := capacity h;
       channels := delete run_id (channels h);
       closed := {[run_id]} ∪ closed h;
       subs := deliver_all (capacity h) TerminalMarker
                 (default [] (channels h !! run_id)) (subs h);
       next_handle := next_handle h |}.

(** Modelled from the spec: a subscriber's receive operation (section
    5): it takes the oldest buffered message, and has nothing to return
    (it suspends) while the buffer is empty. *)
Definition receive (hd : nat) (h : t) : option Message * t :=
  match subs h !! hd with
  | Some s =>
      match pending s with
      | m :: rest =>
          (Some m,
           {| capacity := capacity h;
              channels := channels h;
              closed := closed h;
              subs := <[hd := {| sub_run := sub_run s;
                                 pending := rest;
                                 received := received s ++ [m] |}]> (subs h);
              next_handle := next_handle h |})
      | [] => (None, h)
      end
  | None => (None, h)
  end.

(** Everything a subscriber has been handed: read or still buffered. *)
Definition handed (hd : nat) (h : t) : list Message :=
  match subs h !! hd with
  | Some s => received s ++ pending s
  | None => []
  end.

(** The hub's operations as data, to speak about arbitrary activity. *)
Inductive op : Type :=
  | OpSend (run_id : string) (ev : LogEvent)
  | OpConnect (run_id : string)
  | OpDisconnect (run_id : string) (hd : nat)
  | OpCloseRun (run_id : string)
  | OpReceive (hd : nat).

Definition step (h : t) (o : op) : t :=
  match o with
  | OpSend run_id ev => send run_id ev h
  | OpConnect run_id => (connect run_id h).2
  | OpDisconnect run_id hd => disconnect run_id hd h
  | OpCloseRun run_id => closeRun run_id h
  | OpReceive hd => (receive hd h).2
  end.

Definition run (ops : list op) (h : t) : t := foldl step h ops.

(** Handles are numbered in order of arrival: every registered handle
    is below the next one. *)
Definition well_numbered (h : t) : Prop :=
  forall id l x, channels h !! id = Some l -> x ∈ l -> (x < next_handle h)%nat.

(** The handle [hd] is registered in no channel set and has been
    handed exactly [ms]. *)
Definition detached_with (hd : nat) (ms : list Message) (h : t) : Prop :=
  (hd < next_handle h)%nat
  /\ (forall id l, channels h !! id = Some l -> hd ∉ l)
  /\ handed hd h = ms
  /\ is_Some (subs h !! hd).

End Hub.

(* ===================================================================== *)
(** ** app/main.py                                                        *)
(* ===================================================================== *)

Module Main.

(** [req.campaign]: an opaque configuration dict. *)
Definition Cfg : Type := gmap string string.

(** The [asyncio.Task] wrapping the coroutine [_background_run(cfg, run_id)]. *)
Record Task : Type := mkTask {
  task_cfg : Cfg;
  task_run_id : string
}.

(** The effects of main.py that can be observed from outside, in the
    order they happen. *)
Inductive Effect : Type :=
  | CreateTask (t : Task)                      (* asyncio.create_task *)
  | Register (run_id : string)                 (* RUN_TASKS[run_id] = task *)
  | Send (run_id : string) (ev : LogEvent)     (* ws_manager.send *)
  | Pop (run_id : string).                     (* RUN_TASKS.pop(run_id, None) *)

(** The process state: the module-level dict [RUN_TASKS], the hub
    object [ws_manager], the tasks the event loop holds ready but has
    not started, how often the clock and the uuid source have been
    read, and the effects so far. *)
Record World : Type := mkWorld {
  RUN_TASKS : gmap string Task;
  ws_manager : Hub.t;
  loop_ready : list Task;
  clock_reads : nat;
  uuid_draws : nat;
  trace : list Effect
}.

(** [{"success": True, "run_id": run_id}] *)
Record StartResponse : Type := mkStart {
  success : bool;
  run_id_of : string
}.

Definition set_RUN_TASKS (m : gmap string Task) (w : World) : World :=
  {| RUN_TASKS := m; ws_manager := ws_manager w; loop_ready := loop_ready w;
     clock_reads := clock_reads w; uuid_draws := uuid_draws w; trace := trace w |}.

Definition emit (e : Effect) (w : World) : World :=
  {| RUN_TASKS := RUN_TASKS w; ws_manager := ws_manager w; loop_ready := loop_ready w;
     clock_reads := clock_reads w; uuid_draws := uuid_draws w;
     trace := trace w ++ [e] |}.

(** [await ws_manager.send(run_id, event)] *)
Definition ws_send (run_id : string) (ev : LogEvent) (w : World) : World :=
  emit (Send run_id ev)
    {| RUN_TASKS := RUN_TASKS w;
       ws_manager := Hub.send run_id ev (ws_manager w);
       loop_ready := loop_ready w;
       clock_reads := clock_reads w; uuid_draws := uuid_draws w; trace := trace w |}.

(** [asyncio.create_task(coro)]: the task is handed to the event loop,
    which starts it only when the current coroutine awaits or returns. *)
Definition create_task (t : Task) (w : World) : World :=
  emit (CreateTask t)
    {| RUN_TASKS := RUN_TASKS w; ws_manager := ws_manager w;
       loop_ready := loop_ready w ++ [t];
       clock_reads := clock_reads w; uuid_draws := uuid_draws w; trace := trace w |}.

(** The terminal event: level [INFO], text "Run finished". *)
Definition is_run_finished (e : Effect) : bool :=
  match e with
  | Send _ ev => bool_decide (level ev = INFO) && bool_decide (text ev = "Run finished"%string)
  | _ => false
  end.

(** The events published for one run id, in order. *)
Definition published_for (run_id : string) (tr : list Effect) : list LogEvent :=
  omap (fun e => match e with
                 | Send r ev => if bool_decide (r = run_id) then Some ev else None
                 | _ => None
                 end) tr.

(** Every key of the registry was drawn from the uuid source. *)
Definition registry_drawn (uuid4 : nat -> string) (w : World) : Prop :=
  forall id, is_Some (RUN_TASKS w !! id) ->
             exists i, (i < uuid_draws w)%nat /\ uuid4 i = id.

Section WithEnvironment.

(** [int(time.time())] at the [n]-th reading of the clock. *)
Variable time_time : nat -> Z.

(** [str(uuid.uuid4())] at the [n]-th draw. *)
Variable uuid4 : nat -> string.

(** [run_campaign_async(cfg, run_id=run_id)] of app/async_worker.py,
    which is not among the sources: the stage sequence, which may do
    anything to the process state and then returns or raises. *)
Variable run_campaign_async : Cfg -> string -> World -> Py.result unit * World.

Definition now (w : World) : Z * World :=
  (time_time (clock_reads w),
   {| RUN_TASKS := RUN_TASKS w; ws_manager := ws_manager w; loop_ready := loop_ready w;
      clock_reads := S (clock_reads w); uuid_draws := uuid_draws w; trace := trace w |}).

Definition draw_uuid (w : World) : string * World :=
  (uuid4 (uuid_draws w),
   {| RUN_TASKS := RUN_TASKS w; ws_manager := ws_manager w; loop_ready := loop_ready w;
      clock_reads := clock_reads w; uuid_draws := S (uuid_draws w); trace := trace w |}).

(** The two dicts [_background_run] publishes, with the clock read
    in state [w]. *)
Definition finished_event (w : World) : LogEvent :=
  {| ts := time_time (clock_reads w); level := INFO; text := "Run finished" |}.

Definition error_event (e : Py.exn) (w : World) : LogEvent :=
  {| ts := time_time (clock_reads w); level := ERROR;
     text := String.append "Background run error: " (Py.exn_str e) |}.

(** [run_campaign_async_endpoint(req)] *)
Definition run_campaign_async_endpoint (campaign : Cfg) (w : World)
  : StartResponse * World :=
  let '(run_id, w) := draw_uuid w in
  let cfg := campaign in
  (* spawn background task *)
  let task := {| task_cfg := cfg; task_run_id := run_id |} in
  let w := create_task task w in
  let w := emit (Register run_id) (set_RUN_TASKS (<[run_id := task]> (RUN_TASKS w)) w) in
  ({| success := true; run_id_of := run_id |}, w).

(** The [except Exception as e] clause of [_background_run]. *)
Definition background_except (run_id : string) (e : Py.exn) (w : World) : World :=
  let '(t, w) := now w in
  ws_send run_id
    {| ts := t; level := ERROR;
       text := String.append "Background run error: " (Py.exn_str e) |} w.

(** The [finally] clause of [_background_run]. *)
Definition background_finally (run_id : string) (w : World) : Py.result unit * World :=
  (* Optionally signal completion *)
  let '(t, w) := now w in
  let w := ws_send run_id {| ts := t; level := INFO; text := "Run finished" |} w in
  (* cleanup: remove from RUN_TASKS *)
  match Py.dict_pop (RUN_TASKS w) run_id true with
  | Py.Returned (_, m) => (Py.Returned (), emit (Pop run_id) (set_RUN_TASKS m w))
  | Py.Raised e => (Py.Raised e, w)
  end.

(** [_background_run(cfg, run_id)]: an exception that is not an
    [Exception] skips the [except] clause, runs [finally] and is
    raised again when [finally] completes. *)
Definition _background_run (cfg : Cfg) (run_id : string) (w : World)
  : Py.result unit * World :=
  let '(r, w) := run_campaign_async cfg run_id w in
  match r with
  | Py.Returned _ => background_finally run_id w
  | Py.Raised e =>
      if Py.is_Exception e then
        background_finally run_id (background_except run_id e w)
      else
        let '(f, w) := background_finally run_id w in
        (match f with Py.Returned _ => Py.Raised e | Py.Raised e' => Py.Raised e' end, w)
  end.

(** What the client side of a log connection does next. *)
Inductive ClientFrame : Type :=
  | FrameText (s : string)
  | FrameDisconnect           (* WebSocketDisconnect *)
  | FrameError (e : Py.exn).

(** The [while True: await websocket.receive_text()] loop over the
    frames the client sends: [true] when the connection is still open
    after them. *)
Fixpoint keep_alive (frames : list ClientFrame) : bool * Py.result unit :=
  match frames with
  | [] => (true, Py.Returned ())
  | FrameText _ :: rest => keep_alive rest
  | FrameDisconnect :: _ => (false, Py.Returned ())
  | FrameError e :: _ =>
      (false, if Py.is_Exception e then Py.Returned () else Py.Raised e)
  end.

(** [websocket_logs(websocket, run_id)]: the handle of the new
    subscription, and the state after the client's frames. *)
Definition websocket_logs (run_id : string) (frames : list ClientFrame) (w : World)
  : nat * Py.result unit * World :=
  let '(hd, hub) := Hub.connect run_id (ws_manager w) in
  let '(open, r) := keep_alive frames in
  let hub := if open then hub
             else match r with
                  | Py.Returned _ => Hub.disconnect run_id hd hub
                  | Py.Raised _ => hub
                  end in
  (hd, r,
   {| RUN_TASKS := RUN_TASKS w; ws_manager := hub; loop_ready := loop_ready w;
      clock_reads := clock_reads w; uuid_draws := uuid_draws w; trace := trace w |}).

End WithEnvironment.

End Main.

(* ===================================================================== *)
(** ** app/worker/worker.py                                               *)
(* ===================================================================== *)

Module Worker.

(** [run_campaign_worker()]: the lines the generator yields and how it
    ends, given what [fetch_with_playwright] (app/scraper, not among
    the sources) does. *)
Definition run_campaign_worker (fetched : Py.result string)
  : list string * Py.result unit :=
  match fetched with
  | Py.Returned html =>
      (["[INFO] Starting worker..."; "[SUCCESS] Fetched page";
        "[INFO] Worker complete"]%string, Py.Returned ())
  | Py.Raised e =>
      if Py.is_Exception e then
        (["[INFO] Starting worker...";
          String.append "[ERROR] " (Py.exn_str e);
          "[INFO] Worker complete"]%string, Py.Returned ())
      else (["[INFO] Starting worker..."]%string, Py.Raised e)
  end.

End Worker.

(* ===================================================================== *)
(** ** app/routes/campaign.py                                             *)
(* ===================================================================== *)

Module Campaign.

(** What the handler has done to the socket, in order: the calls that
    completed. *)
Inductive WsAction : Type :=
  | Accept
  | SendText (log : string)
  | Close.

#[global] Instance WsAction_eq_dec : EqDecision WsAction.
Proof. solve_decision. Defined.

Section WithSocket.

(** [ws.accept()], the [n]-th [ws.send_text(log)] and [ws.close()]: each
    completes or raises (the peer may be gone). *)
Variable ws_accept : Py.result unit.
Variable ws_send_text : nat -> string -> Py.result unit.
Variable ws_close : Py.result unit.

(** The loop [async for log in ...: await ws.send_text(log)] over the
    lines still to come, after [n] sends: the sends that completed, and
    the exception of the first one that did not. *)
Fixpoint send_all (n : nat) (logs : list string) : list WsAction * Py.result unit :=
  match logs with
  | [] => ([], Py.Returned ())
  | log :: rest =>
      match ws_send_text n log with
      | Py.Raised e => ([], Py.Raised e)
      | Py.Returned _ =>
          let '(sent, r) := send_all (S n) rest in (SendText log :: sent, r)
      end
  end.

(** [run_campaign_socket(ws)]: accept, forward every line the worker
    yields, close.  No call is guarded: the first exception (of the
    socket, or one the worker lets through) ends the handler. *)
Definition run_campaign_socket (fetched : Py.result string)
  : list WsAction * Py.result unit :=
  match ws_accept with
  | Py.Raised e => ([], Py.Raised e)
  | Py.Returned _ =>
      let '(logs, ended) := Worker.run_campaign_worker fetched in
      let '(sent, r) := send_all 0 logs in
      match r with
      | Py.Raised e => (Accept :: sent, Py.Raised e)
      | Py.Returned _ =>
          match ended with
          | Py.Raised e => (Accept :: sent, Py.Raised e)
          | Py.Returned _ =>
              match ws_close with
              | Py.Raised e => (Accept :: sent, Py.Raised e)
              | Py.Returned _ => (Accept :: sent ++ [Close], Py.Returned ())
              end
          end
      end
  end.

End WithSocket.

End Campaign.

(* ===================================================================== *)
(** ** Concrete environments, used to run the definitions                 *)
(* ===================================================================== *)

Module Examples.

Local Open Scope string_scope.

(** A small reader of [<loc>] elements, standing in for bs4 on the
    example documents below: the text between each [<loc>] and the
    next [</loc>].  [skip] counts the characters of a tag still to be
    passed over; [cur] is the text of the open element, reversed. *)
Fixpoint loc_scan (skip : nat) (cur : option string) (s : string) : list string :=
  match s with
  | EmptyString => []
  | String c s' =>
      match skip with
      | S n => loc_scan n cur s'
      | O =>
          match cur with
          | None =>
              if String.prefix "<loc>" s then loc_scan 4 (Some EmptyString) s'
              else loc_scan 0 None s'
          | Some acc =>
              if String.prefix "</loc>" s then String.rev acc :: loc_scan 5 None s'
              else loc_scan 0 (Some (String c acc)) s'
          end
      end
  end.

Definition loc_texts (txt : string) : list string := loc_scan 0 None txt.

Definition index_xml : string :=
  "<sitemapindex><sitemap><loc>https://example.com/post-sitemap.xml</loc></sitemap><sitemap><loc> https://example.com/post-sitemap2.xml </loc></sitemap><sitemap><loc>https://example.com/page-sitemap.xml</loc></sitemap></sitemapindex>".

Definition posts_xml : string :=
  "<urlset><url><loc>https://example.com/hello-world</loc></url><url><loc>https://example.com/blog/my-first-post</loc></url></urlset>".

(** A site with a sitemap index and two post sitemaps. *)
Definition web (k : nat) (url : string) : HttpOutcome :=
  if bool_decide (url = "https://example.com/sitemap_index.xml") then Response 200 index_xml
  else if bool_decide (url = "https://example.com/post-sitemap2.xml") then Response 200 posts_xml
  else Response 404 "Not Found".

(** The same index, on a site whose post sitemaps are gone. *)
Definition web_missing (k : nat) (url : string) : HttpOutcome :=
  if bool_decide (url = "https://example.com/sitemap_index.xml") then Response 200 index_xml
  else Response 404 "Not Found".

(** A site without sitemaps. *)
Definition web_empty (k : nat) (url : string) : HttpOutcome :=
  Response 404 "Not Found".

Definition payload : gmap string string :=
  {["url" := "https://example.com/sitemap_index.xml"]}.

Definition rss_article : Article :=
  {| art_url := "https://example.com/from-feed";
     art_source := "https://example.com/feed";
     art_title := "From Feed" |}.

Definition rss_finds (url : string) : Py.result (option Article) :=
  Py.Returned (Some rss_article).

Definition finds_nothing (url : string) : Py.result (option Article) :=
  Py.Returned None.

(** A CMS that answers the category request with a two-element list,
    and one that answers 200 with a page that is not JSON. *)
Definition cms_payload : gmap string string :=
  <["url" := "https://blog.example.com"]>
    (<["username" := "editor"]> (<["password" := "app-password"]> ∅)).

Definition cms_ok (url : string) (auth : string * string) : HttpOutcome :=
  if bool_decide (url = "https://blog.example.com/wp-json/wp/v2/categories")
  then Response 200 "[1, 2]" else Response 404 "Not Found".

Definition cms_html (url : string) (auth : string * string) : HttpOutcome :=
  Response 200 "<html>login</html>".

Definition json_decode (body : string) : Py.result (list Z) :=
  if bool_decide (body = "[1, 2]") then Py.Returned [1; 2]
  else Py.Raised (Py.Exn Py.ValueError "Expecting value: line 1 column 1 (char 0)").

(** A run whose stage sequence raises, and one that completes. *)
Definition stage_failure : Py.exn := Py.Exn Py.RuntimeError "fetch failed".

Definition failing_run (cfg : Main.Cfg) (run_id : string) (w : Main.World)
  : Py.result unit * Main.World := (Py.Raised stage_failure, w).

Definition clock (n : nat) : Z := 1700000000 + Z.of_nat n.

Definition uuids (n : nat) : string := pretty n.

Definition world0 : Main.World :=
  {| Main.RUN_TASKS := ∅; Main.ws_manager := Hub.empty 8; Main.loop_ready := [];
     Main.clock_reads := 0; Main.uuid_draws := 0; Main.trace := [] |}.

(** A process with two registered runs. *)
Definition two_runs : Main.World :=
  {| Main.RUN_TASKS := <["a" := Main.mkTask ∅ "a"]> (<["b" := Main.mkTask ∅ "b"]> ∅);
     Main.ws_manager := Hub.empty 8; Main.loop_ready := [];
     Main.clock_reads := 0; Main.uuid_draws := 2; Main.trace := [] |}.

(** A run that is cancelled, and one whose stage sequence completes;
    neither touches the process state. *)
Definition cancellation : Py.exn := Py.Exn Py.CancelledError EmptyString.

Definition cancelled_run (cfg : Main.Cfg) (run_id : string) (w : Main.World)
  : Py.result unit * Main.World := (Py.Raised cancellation, w).

Definition quiet_run (cfg : Main.Cfg) (run_id : string) (w : Main.World)
  : Py.result unit * Main.World := (Py.Returned (), w).

(** A socket on which every call completes, and one whose peer is gone
    after the first line. *)
Definition send_ok (n : nat) (log : string) : Py.result unit := Py.Returned ().

Definition send_once (n : nat) (log : string) : Py.result unit :=
  match n with
  | O => Py.Returned ()
  | S _ => Py.Raised (Py.Exn Py.RuntimeError "Cannot call send once a close message has been sent.")
  end.

(** A model that answers every prompt, and one that is unavailable. *)
Definition model_echo (prompt : string) : Py.result string :=
  Py.Returned "<ul><li>summary</li></ul>".


(** An index whose only post sitemap carries a number of 4301 digits. *)
Fixpoint nines (n : nat) : string :=
  match n with
  | O => EmptyString
  | S n' => String "9" (nines n')
  end.

Definition long_index_xml : string :=
  String.append "<sitemapindex><sitemap><loc>https://example.com/post-sitemap"
    (String.append (nines 4301) ".xml</loc></sitemap></sitemapindex>").

Definition web_long (k : nat) (url : string) : HttpOutcome :=
  if bool_decide (url = "https://example.com/sitemap_index.xml") then Response 200 long_index_xml
  else Response 200 posts_xml.

End Examples.

(* ===================================================================== *)
(** ** Properties                                                          *)
(* ===================================================================== *)

Lemma returned_inj {A : Type} (x y : A) : Py.Returned x = Py.Returned y -> x = y.
Proof. congruence. Qed.

Lemma append_empty_r (s : string) : String.append s EmptyString = s.
Proof.
  induction s as [|c s IH]; [reflexivity|].
  change (String c (String.append s EmptyString) = String c s). by rewrite IH.
Qed.

Lemma append_cons (c : ascii) (s t : string) :
  String.append (String c s) t = String c (String.append s t).
Proof. reflexivity. Qed.

Lemma append_nil (t : string) : String.append EmptyString t = t.
Proof. reflexivity. Qed.

Lemma contains_suffix (p s : string) : Str.contains (String.append p s) s.
Proof. exists p, EmptyString. by rewrite append_empty_r. Qed.

(* --------------------------------------------------------------------- *)
(** *** The rewrite collaborator                                          *)
(* --------------------------------------------------------------------- *)

(** C6: with the credential absent ([GEN_API_KEY] is [None], and likewise
    when it is the empty string) [rewrite_content_gemini] returns the
    input text unchanged, for every text and word budget and whatever the
    generative model would do; it does not raise. *)
Theorem rewrite_without_credential_is_identity
    (generate_content : string -> Py.result string) (text : string) (max_words : Z) :
  Rewrite.rewrite_content_gemini generate_content None text max_words
    = Py.Returned text
  /\ Rewrite.rewrite_content_gemini generate_content (Some EmptyString) text max_words
    = Py.Returned text.
Proof. split; reflexivity. Qed.

(* --------------------------------------------------------------------- *)
(** *** The run registry                                                  *)
(* --------------------------------------------------------------------- *)

Lemma dict_pop_default_returns {V : Type} (d : gmap string V) (key : string) :
  Py.dict_pop d key true = Py.Returned (d !! key, delete key d).
Proof.
  unfold Py.dict_pop. destruct (d !! key) eqn:E; [reflexivity|].
  by rewrite delete_id.
Qed.

(** [d.pop(key, None)] never raises; it leaves no entry for [key],
    keeps every other entry, and a second pop changes nothing. *)
Lemma dict_pop_default_idempotent {V : Type} (d : gmap string V) (key : string) :
  exists popped after,
    Py.dict_pop d key true = Py.Returned (popped, after)
    /\ popped = d !! key
    /\ (d !! key = None -> after = d)
    /\ after !! key = None
    /\ (forall other, other ≠ key -> after !! other = d !! other)
    /\ Py.dict_pop after key true = Py.Returned (None, after).
Proof.
  exists (d !! key), (delete key d).
  rewrite dict_pop_default_returns. split_and!; try done.
  - intros H. by apply delete_id.
  - apply lookup_delete_eq.
  - intros other Hne. by apply lookup_delete_ne.
  - rewrite dict_pop_default_returns, lookup_delete_eq.
    f_equal. f_equal. apply delete_id, lookup_delete_eq.
Qed.

(* --------------------------------------------------------------------- *)
(** *** The CMS collaborator                                              *)
(* --------------------------------------------------------------------- *)

Section CmsProperties.

Context {Json : Type}.
Variable client_get : string -> string * string -> HttpOutcome.
Variable json : string -> Py.result Json.

Lemma verify_connection_with_keys (payload : gmap string string)
    (base_url user app_password : string) :
  payload !! "url"%string = Some base_url ->
  payload !! "username"%string = Some user ->
  payload !! "password"%string = Some app_password ->
  Cms.verify_connection Json client_get json payload
  = match Cms.verify_try Json client_get json base_url (user, app_password) with
    | Py.Returned r => Py.Returned r
    | Py.Raised e =>
        if Py.is_Exception e then Py.Returned (Cms.NotVerified (Py.exn_str e))
        else Py.Raised e
    end.
Proof.
  intros Hu Hn Hp. unfold Cms.verify_connection, Py.dict_getitem.
  rewrite Hu, Hn, Hp. reflexivity.
Qed.

(** C8 (amended): for a payload that carries [url], [username] and
    [password], [verify_connection] returns a result object in each of
    these cases: success with the decoded category list when the
    endpoint answers 200 with a body that decodes; failure with the
    response body as message on any other status; failure with the
    exception's text as message when decoding the 200 body raises or
    when the request itself raises an [Exception] (a connection error). *)
Theorem verify_connection_reports (payload : gmap string string)
    (base_url user app_password : string) :
  payload !! "url"%string = Some base_url ->
  payload !! "username"%string = Some user ->
  payload !! "password"%string = Some app_password ->
  let request :=
    client_get (String.append base_url "/wp-json/wp/v2/categories") (user, app_password) in
  let answer := Cms.verify_connection Json client_get json payload in
  (forall body c,
      request = Response 200 body -> json body = Py.Returned c ->
      answer = Py.Returned (Cms.Verified c))
  /\ (forall status_code body,
      request = Response status_code body -> status_code ≠ 200 ->
      answer = Py.Returned (Cms.NotVerified body))
  /\ (forall body e,
      request = Response 200 body -> json body = Py.Raised e ->
      Py.is_Exception e = true ->
      answer = Py.Returned (Cms.NotVerified (Py.exn_str e)))
  /\ (forall e,
      request = HttpRaises e -> Py.is_Exception e = true ->
      answer = Py.Returned (Cms.NotVerified (Py.exn_str e))).
Proof.
  intros Hu Hn Hp request answer. subst answer.
  rewrite (verify_connection_with_keys _ _ _ _ Hu Hn Hp).
  unfold Cms.verify_try. fold request.
  split_and!.
  - intros body c -> Hj. simpl. unfold mbind, result_bind. rewrite Hj. reflexivity.
  - intros st body -> Hst. rewrite bool_decide_eq_false_2 by done. reflexivity.
  - intros body e -> Hj He. simpl. unfold mbind, result_bind. rewrite Hj. simpl.
    by rewrite He.
  - intros e -> He. by rewrite He.
Qed.

End CmsProperties.

(** A CMS that answers the category request with 200 and a JSON list. *)
Lemma verify_connection_reports_witness :
  Cms.verify_connection (list Z) Examples.cms_ok Examples.json_decode Examples.cms_payload
  = Py.Returned (Cms.Verified [1; 2]).
Proof.
  destruct (verify_connection_reports Examples.cms_ok Examples.json_decode
              Examples.cms_payload "https://blog.example.com" "editor" "app-password"
              eq_refl eq_refl eq_refl) as (Hok & _).
  apply (Hok "[1, 2]"%string); reflexivity.
Defined.

(** C8, as stated, fails on two inputs: a payload without the [url] key
    makes the endpoint raise [KeyError] (the lookups stand before the
    [try]), and an endpoint that answers HTTP 200 with a body that is
    not JSON gets [success = False]. *)
Lemma verify_connection_counterexample :
  Cms.verify_connection (list Z) Examples.cms_ok Examples.json_decode ∅
    = Py.Raised (Py.Exn Py.KeyError "'url'")
  /\ Cms.verify_connection (list Z) Examples.cms_html Examples.json_decode Examples.cms_payload
    = Py.Returned (Cms.NotVerified "Expecting value: line 1 column 1 (char 0)").
Proof. split; reflexivity. Qed.

(* --------------------------------------------------------------------- *)
(** *** The discovery chain                                               *)
(* --------------------------------------------------------------------- *)

Lemma tagged_method (m : Source.Strategy) (a : Article) :
  Source.tagged m a !! "method"%string = Some (Source.method_name m).
Proof.
  unfold Source.tagged, Source.article_dict.
  rewrite lookup_union_r; [apply lookup_singleton_eq|].
  by rewrite !lookup_insert_ne.
Qed.

Lemma tagged_fields (m : Source.Strategy) (a : Article) :
  Source.tagged m a !! "url"%string = Some (art_url a)
  /\ Source.tagged m a !! "source"%string = Some (art_source a)
  /\ Source.tagged m a !! "title"%string = Some (art_title a).
Proof.
  unfold Source.tagged, Source.article_dict.
  split_and!; apply lookup_union_Some_l.
  - apply lookup_insert_eq.
  - rewrite lookup_insert_ne by done. apply lookup_insert_eq.
  - rewrite !lookup_insert_ne by done. apply lookup_insert_eq.
Qed.



Section SourceProperties.

Variable http_get : nat -> string -> HttpOutcome.
Variable loc_texts : string -> list string.
Variable discover_from_rss : string -> Py.result (option Article).
Variable discover_from_html : string -> Py.result (option Article).

Abbreviation test_source :=
  (Source.test_source http_get loc_texts discover_from_rss discover_from_html).
Abbreviation from_sitemap :=
  (Discover.discover_latest_from_sitemap http_get loc_texts).


End SourceProperties.


(* --------------------------------------------------------------------- *)
(** *** Sitemap discovery                                                 *)
(* --------------------------------------------------------------------- *)

(** **** The final path segment *)

Lemma append_assoc (s1 s2 s3 : string) :
  String.append (String.append s1 s2) s3 = String.append s1 (String.append s2 s3).
Proof.
  induction s1 as [|c s1 IH]; [reflexivity|].
  change (String c (String.append (String.append s1 s2) s3)
          = String c (String.append s1 (String.append s2 s3))).
  by rewrite IH.
Qed.

Lemma rev_app_append (s1 s2 s3 : string) :
  String.append (String.rev_app s1 s2) s3 = String.rev_app s1 (String.append s2 s3).
Proof.
  revert s2. induction s1 as [|c s1 IH]; intros s2; [reflexivity|].
  simpl. by rewrite IH.
Qed.

Lemma rev_cons_append (c : ascii) (cur s : string) :
  String.append (String.rev (String c cur)) s = String.append (String.rev cur) (String c s).
Proof. unfold String.rev. simpl. by rewrite !rev_app_append. Qed.

Lemma chars_rev_app (c : ascii) (s1 s2 : string) :
  In c (Str.chars (String.rev_app s1 s2)) <-> In c (Str.chars s1) \/ In c (Str.chars s2).
Proof.
  revert s2. induction s1 as [|a s1 IH]; intros s2; simpl; [tauto|].
  rewrite IH. simpl. tauto.
Qed.

Lemma chars_rev (c : ascii) (s : string) :
  In c (Str.chars (String.rev s)) <-> In c (Str.chars s).
Proof. unfold String.rev. rewrite chars_rev_app. simpl. tauto. Qed.

Lemma split_go_nonempty (sep : ascii) (cur s : string) : Str.split_go sep cur s ≠ [].
Proof.
  revert cur. induction s as [|c s IH]; intros cur; simpl; [done|].
  destruct (Ascii.eqb c sep); [done | apply IH].
Qed.

Lemma last_cons_nonempty {A : Type} (x d : A) (l : list A) :
  l ≠ [] -> List.last (x :: l) d = List.last l d.
Proof. by destruct l. Qed.

Lemma split_go_last (sep : ascii) (cur s : string) :
  ~ In sep (Str.chars cur) ->
  let seg := List.last (Str.split_go sep cur s) EmptyString in
  ~ In sep (Str.chars seg)
  /\ (String.append (String.rev cur) s = seg
      \/ exists before, String.append (String.rev cur) s
                        = String.append before (String sep seg)).
Proof.
  revert cur. induction s as [|c s IH]; intros cur Hcur; simpl.
  - split; [by rewrite chars_rev|]. left. apply append_empty_r.
  - destruct (Ascii.eqb c sep) eqn:E.
    + apply Ascii.eqb_eq in E as ->.
      rewrite last_cons_nonempty by apply split_go_nonempty.
      destruct (IH EmptyString) as [Hno Hshape]; [simpl; tauto|].
      split; [exact Hno|]. right.
      destruct Hshape as [Heq | [before Heq]].
      * exists (String.rev cur). by rewrite <- Heq.
      * exists (String.append (String.rev cur) (String sep before)).
        rewrite append_assoc. f_equal.
        change (String sep s = String sep (String.append before (String sep
                 (List.last (Str.split_go sep EmptyString s) EmptyString)))).
        f_equal. exact Heq.
    + apply Ascii.eqb_neq in E.
      destruct (IH (String c cur)) as [Hno Hshape].
      { simpl. intros [H | H]; [by apply E | by apply Hcur]. }
      split; [exact Hno|]. rewrite <- rev_cons_append. exact Hshape.
Qed.

(** [url.split("/")[-1]] is the text after the last slash: it holds no
    slash, and the URL is that text alone or ends in a slash followed by
    it. *)
Lemma final_segment_spec (url : string) :
  let seg := List.last (Str.split "/" url) EmptyString in
  ~ In "/"%char (Str.chars seg)
  /\ (url = seg \/ exists before, url = String.append before (String "/" seg)).
Proof. apply (split_go_last "/" EmptyString url). simpl. tauto. Qed.

(** **** What the pattern matches *)

Ltac in_list := repeat first [ by left | right ].

Lemma strip_prefix_Some (p s r : string) :
  Str.strip_prefix p s = Some r -> s = String.append p r.
Proof.
  revert s. induction p as [|a p IH]; intros s.
  - simpl. by intros [= ->].
  - destruct s as [|b s]; simpl; [done|].
    destruct (Ascii.eqb a b) eqn:E; [|done].
    apply Ascii.eqb_eq in E as ->. intros H%IH. by rewrite H.
Qed.

Lemma span_digits_spec (s ds rest : string) :
  Str.span_digits s = (ds, rest) ->
  s = String.append ds rest /\ Forall (fun c => Str.isdigit c = true) (Str.chars ds).
Proof.
  revert ds rest. induction s as [|c s IH]; intros ds rest; simpl.
  - intros [= <- <-]. split; [done | constructor].
  - destruct (Str.isdigit c) eqn:E.
    + destruct (Str.span_digits s) as [ds' rest'].
      intros [= <- <-]. destruct (IH ds' rest' eq_refl) as [-> Hd].
      split; [done|]. by constructor.
    + intros [= <- <-]. split; [done | constructor].
Qed.

Lemma match_tail_sound (s g3 : string) :
  Sitemap.match_tail s = Some g3 ->
  exists nl, s = String.append g3 (String.append ".xml" nl)
             /\ nl ∈ [EmptyString; String "010" EmptyString]
             /\ Forall (fun c => Str.isdigit c = true) (Str.chars g3).
Proof.
  unfold Sitemap.match_tail.
  destruct (Str.span_digits s) as [ds rest] eqn:E.
  apply span_digits_spec in E as [-> Hd].
  case_bool_decide as E1; simpl.
  { subst rest. intros [= <-].
    exists EmptyString. split_and!; [done | in_list | done]. }
  case_bool_decide as E2; [|done].
  subst rest. intros [= <-].
  exists (String "010" EmptyString). split_and!; [done | in_list | done].
Qed.

Lemma match_after_word_sound (s g3 : string) :
  Sitemap.match_after_word s = Some g3 ->
  exists opt nl,
    s = String.append opt (String.append g3 (String.append ".xml" nl))
    /\ opt ∈ [EmptyString; "-sitemap"%string]
    /\ nl ∈ [EmptyString; String "010" EmptyString]
    /\ Forall (fun c => Str.isdigit c = true) (Str.chars g3).
Proof.
  unfold Sitemap.match_after_word.
  assert (Sitemap.match_tail s = Some g3 ->
          exists opt nl,
            s = String.append opt (String.append g3 (String.append ".xml" nl))
            /\ opt ∈ [EmptyString; "-sitemap"%string]
            /\ nl ∈ [EmptyString; String "010" EmptyString]
            /\ Forall (fun c => Str.isdigit c = true) (Str.chars g3)) as Hplain.
  { intros (nl & -> & Hnl & Hd)%match_tail_sound.
    exists EmptyString, nl. split_and!; [done | in_list | done | done]. }
  destruct (Str.strip_prefix "-sitemap" s) as [r|] eqn:E; [|exact Hplain].
  destruct (Sitemap.match_tail r) as [g|] eqn:Er; [|exact Hplain].
  intros Hg. injection Hg as ->. apply strip_prefix_Some in E as ->.
  apply match_tail_sound in Er as (nl & -> & Hnl & Hd).
  exists "-sitemap"%string, nl. split_and!; [done | in_list | done | done].
Qed.

Lemma match_words_sound (ws : list string) (s g3 : string) :
  Sitemap.match_words ws s = Some g3 ->
  exists word opt nl,
    s = String.append word (String.append opt (String.append g3 (String.append ".xml" nl)))
    /\ word ∈ ws
    /\ opt ∈ [EmptyString; "-sitemap"%string]
    /\ nl ∈ [EmptyString; String "010" EmptyString]
    /\ Forall (fun c => Str.isdigit c = true) (Str.chars g3).
Proof.
  induction ws as [|w ws IH]; simpl; [done|].
  assert (Sitemap.match_words ws s = Some g3 ->
          exists word opt nl,
            s = String.append word
                  (String.append opt (String.append g3 (String.append ".xml" nl)))
            /\ word ∈ w :: ws
            /\ opt ∈ [EmptyString; "-sitemap"%string]
            /\ nl ∈ [EmptyString; String "010" EmptyString]
            /\ Forall (fun c => Str.isdigit c = true) (Str.chars g3)) as Hrest.
  { intros (word & opt & nl & ? & ? & ?)%IH. exists word, opt, nl.
    split_and!; [done | by right | tauto..]. }
  destruct (Str.strip_prefix w s) as [r|] eqn:E; [|exact Hrest].
  destruct (Sitemap.match_after_word r) as [g|] eqn:Er; [|exact Hrest].
  intros Hg. injection Hg as ->. apply strip_prefix_Some in E as ->.
  apply match_after_word_sound in Er as (opt & nl & -> & ? & ? & ?).
  exists w, opt, nl. split_and!; [done | by left | done..].
Qed.

(** Where the search succeeds, the string ends in a match of the
    pattern and group 3 is the digits of that match. *)
Lemma search_match_shape (s g3 : string) :
  Sitemap.POST_PATTERN_search s = Some g3 ->
  exists before tail, s = String.append before tail /\ Sitemap.matches_here tail g3.
Proof.
  induction s as [|c s IH].
  - intros H. vm_compute in H. discriminate H.
  - simpl. destruct (Sitemap.POST_PATTERN_match (String c s)) eqn:E.
    + intros [= ->]. exists EmptyString, (String c s). split; [done|].
      by apply match_words_sound in E.
    + intros (before & tail & -> & Hm)%IH.
      exists (String c before), tail. split; [done | exact Hm].
Qed.

(** A string on which [POST_PATTERN.search] succeeds ends in a match of
    the pattern, and group 3 is the digits of that match. *)
Lemma POST_PATTERN_search_sound (s g3 : string) :
  Sitemap.POST_PATTERN_search s = Some g3 ->
  exists before tail, s = String.append before tail /\ Sitemap.matches_here tail g3.
Proof. exact (search_match_shape s g3). Qed.

(** **** Every string of the shape is matched *)

Lemma chars_append (s t : string) :
  Str.chars (String.append s t) = Str.chars s ++ Str.chars t.
Proof.
  induction s as [|c s IH]; [reflexivity|].
  rewrite append_cons. simpl. by rewrite IH.
Qed.

Lemma chars_inj (s t : string) : Str.chars s = Str.chars t -> s = t.
Proof.
  intros H. rewrite <- (string_of_list_ascii_of_string s),
    <- (string_of_list_ascii_of_string t).
  unfold Str.chars in H. by rewrite H.
Qed.

Lemma POST_PATTERN_search_unfold (s : string) :
  Sitemap.POST_PATTERN_search s
  = match Sitemap.POST_PATTERN_match s with
    | Some g => Some g
    | None =>
        match s with
        | EmptyString => None
        | String _ s' => Sitemap.POST_PATTERN_search s'
        end
    end.
Proof. destruct s; reflexivity. Qed.

Lemma strip_prefix_append (p r : string) :
  Str.strip_prefix p (String.append p r) = Some r.
Proof.
  induction p as [|a p IH]; [reflexivity|].
  rewrite append_cons. simpl. by rewrite Ascii.eqb_refl.
Qed.

Lemma span_digits_append (ds rest : string) :
  Forall (fun c => Str.isdigit c = true) (Str.chars ds) ->
  Str.span_digits rest = (EmptyString, rest) ->
  Str.span_digits (String.append ds rest) = (ds, rest).
Proof.
  intros Hd Hrest. induction ds as [|c ds IH]; [exact Hrest|].
  apply Forall_cons in Hd as [Hc Hd].
  rewrite append_cons. simpl. rewrite Hc, IH by done. reflexivity.
Qed.

Lemma match_tail_complete (ds nl : string) :
  Forall (fun c => Str.isdigit c = true) (Str.chars ds) ->
  nl ∈ [EmptyString; String "010" EmptyString] ->
  Sitemap.match_tail (String.append ds (String.append ".xml" nl)) = Some ds.
Proof.
  intros Hd Hnl. unfold Sitemap.match_tail.
  rewrite (span_digits_append ds (String.append ".xml" nl) Hd eq_refl).
  apply list_elem_of_In in Hnl. simpl in Hnl.
  destruct Hnl as [<- | [<- | []]]; reflexivity.
Qed.

Lemma strip_prefix_hyphen_digits (ds rest : string) :
  Forall (fun c => Str.isdigit c = true) (Str.chars ds) ->
  Str.strip_prefix "-sitemap" (String.append ds (String.append ".xml" rest)) = None.
Proof.
  intros Hd. destruct ds as [|c ds]; [reflexivity|].
  apply Forall_cons in Hd as [Hc _]. rewrite append_cons.
  change (Str.strip_prefix "-sitemap"
            (String c (String.append ds (String.append ".xml" rest))))
    with (if Ascii.eqb "-" c
          then Str.strip_prefix "sitemap" (String.append ds (String.append ".xml" rest))
          else None).
  destruct (Ascii.eqb "-" c) eqn:E; [|reflexivity].
  apply Ascii.eqb_eq in E as <-. vm_compute in Hc. discriminate Hc.
Qed.

Lemma match_after_word_complete (opt ds nl : string) :
  opt ∈ [EmptyString; "-sitemap"%string] ->
  Forall (fun c => Str.isdigit c = true) (Str.chars ds) ->
  nl ∈ [EmptyString; String "010" EmptyString] ->
  Sitemap.match_after_word
    (String.append opt (String.append ds (String.append ".xml" nl))) = Some ds.
Proof.
  intros Hopt Hd Hnl. unfold Sitemap.match_after_word.
  apply elem_of_cons in Hopt as [-> | Hopt].
  - rewrite append_nil, strip_prefix_hyphen_digits by done.
    by apply match_tail_complete.
  - apply list_elem_of_singleton in Hopt as ->.
    rewrite strip_prefix_append, match_tail_complete by done. reflexivity.
Qed.

Lemma match_words_cons (w : string) (ws : list string) (s : string) :
  Sitemap.match_words (w :: ws) s
  = match Str.strip_prefix w s with
    | Some r =>
        match Sitemap.match_after_word r with
        | Some g => Some g
        | None => Sitemap.match_words ws s
        end
    | None => Sitemap.match_words ws s
    end.
Proof. reflexivity. Qed.

(** The pattern matches at the start of every string of the shape
    [matches_here], with the shape's digits as group 3. *)
Lemma POST_PATTERN_match_complete (tail ds : string) :
  Sitemap.matches_here tail ds -> Sitemap.POST_PATTERN_match tail = Some ds.
Proof.
  intros (word & opt & nl & -> & Hw & Hopt & Hnl & Hd).
  unfold Sitemap.POST_PATTERN_match.
  pose proof (match_after_word_complete opt ds nl Hopt Hd Hnl) as Hm.
  set (r := String.append opt (String.append ds (String.append ".xml" nl))) in *.
  apply elem_of_cons in Hw as [-> | Hw].
  { rewrite match_words_cons, strip_prefix_append, Hm. reflexivity. }
  apply elem_of_cons in Hw as [-> | Hw].
  { rewrite match_words_cons.
    assert (Str.strip_prefix "post" (String.append "article" r) = None) as ->.
    { rewrite (append_cons "a" "rticle" r). reflexivity. }
    rewrite match_words_cons, strip_prefix_append, Hm. reflexivity. }
  apply list_elem_of_singleton in Hw as ->.
  rewrite match_words_cons.
  assert (Str.strip_prefix "post" (String.append "news" r) = None) as ->.
  { rewrite (append_cons "n" "ews" r). reflexivity. }
  rewrite match_words_cons.
  assert (Str.strip_prefix "article" (String.append "news" r) = None) as ->.
  { rewrite (append_cons "n" "ews" r). reflexivity. }
  rewrite match_words_cons, strip_prefix_append, Hm. reflexivity.
Qed.

(** Two runs of digits that are each followed by the same text and
    preceded by a character that is not a digit are the same run. *)
Lemma digit_run_unique (X Y P Q : list ascii) (a b : ascii) :
  Forall (fun c => Str.isdigit c = true) X ->
  Forall (fun c => Str.isdigit c = true) Y ->
  Str.isdigit a = false -> Str.isdigit b = false ->
  X ++ a :: P = Y ++ b :: Q -> X = Y.
Proof.
  revert Y. induction X as [|x X IH]; intros Y HX HY Ha Hb Heq.
  - destruct Y as [|y Y]; [reflexivity|].
    simpl in Heq. injection Heq as -> _.
    apply Forall_cons in HY as [Hy _]. congruence.
  - destruct Y as [|y Y].
    + simpl in Heq. injection Heq as -> _.
      apply Forall_cons in HX as [Hx _]. congruence.
    + simpl in Heq. injection Heq as -> Heq.
      apply Forall_cons in HX as [_ HX]. apply Forall_cons in HY as [_ HY].
      f_equal. by eapply IH.
Qed.

(** The words and the optional group end in a letter. *)
Lemma word_opt_ends_in_letter (word opt : string) :
  word ∈ ["post"; "article"; "news"]%string ->
  opt ∈ [EmptyString; "-sitemap"%string] ->
  exists front a,
    Str.chars (String.append word opt) = front ++ [a] /\ Str.isdigit a = false.
Proof.
  intros Hw Hopt.
  apply list_elem_of_In in Hw. apply list_elem_of_In in Hopt. simpl in Hw, Hopt.
  destruct Hw as [<- | [<- | [<- | []]]]; destruct Hopt as [<- | [<- | []]].
  - by exists (Str.chars "pos"), "t"%char.
  - by exists (Str.chars "post-sitema"), "p"%char.
  - by exists (Str.chars "articl"), "e"%char.
  - by exists (Str.chars "article-sitema"), "p"%char.
  - by exists (Str.chars "new"), "s"%char.
  - by exists (Str.chars "news-sitema"), "p"%char.
Qed.

(** Two matches of the pattern that end at the end of the same string
    have the same digits. *)
Lemma match_group_is_the_digits (b1 t1 g1 b2 t2 g2 : string) :
  Sitemap.matches_here t1 g1 ->
  Sitemap.matches_here t2 g2 ->
  String.append b1 t1 = String.append b2 t2 ->
  g1 = g2.
Proof.
  intros (w1 & o1 & n1 & -> & Hw1 & Ho1 & Hn1 & Hd1)
         (w2 & o2 & n2 & -> & Hw2 & Ho2 & Hn2 & Hd2) Heq.
  destruct (word_opt_ends_in_letter w1 o1 Hw1 Ho1) as (f1 & a1 & Hf1 & Ha1).
  destruct (word_opt_ends_in_letter w2 o2 Hw2 Ho2) as (f2 & a2 & Hf2 & Ha2).
  rewrite <- !(append_assoc w1 o1), <- !(append_assoc w2 o2) in Heq.
  apply (f_equal Str.chars) in Heq.
  rewrite (chars_append b1), (chars_append (String.append w1 o1)), Hf1 in Heq.
  rewrite (chars_append b2), (chars_append (String.append w2 o2)), Hf2 in Heq.
  rewrite !chars_append in Heq.
  apply (f_equal (@rev ascii)) in Heq. rewrite !rev_app_distr in Heq.
  apply list_elem_of_In in Hn1. apply list_elem_of_In in Hn2. simpl in Hn1, Hn2.
  destruct Hn1 as [<- | [<- | []]]; destruct Hn2 as [<- | [<- | []]];
    simpl in Heq; rewrite <- ?app_assoc in Heq; simpl in Heq;
    try discriminate Heq.
  - injection Heq as Heq.
    apply chars_inj.
    rewrite <- (rev_involutive (Str.chars g1)), <- (rev_involutive (Str.chars g2)).
    f_equal.
    eapply (digit_run_unique _ _ _ _ a1 a2); [by apply Forall_rev | by apply Forall_rev
                                             | done | done | exact Heq].
  - injection Heq as Heq.
    apply chars_inj.
    rewrite <- (rev_involutive (Str.chars g1)), <- (rev_involutive (Str.chars g2)).
    f_equal.
    eapply (digit_run_unique _ _ _ _ a1 a2); [by apply Forall_rev | by apply Forall_rev
                                             | done | done | exact Heq].
Qed.

(** The search finds every string that ends in a match of the pattern,
    and group 3 is the digits of that match, whatever stands before. *)
Lemma search_finds_suffix (before tail ds : string) :
  Sitemap.matches_here tail ds ->
  Sitemap.POST_PATTERN_search (String.append before tail) = Some ds.
Proof.
  intros Hshape.
  assert (forall b2 g,
             Sitemap.POST_PATTERN_match (String.append b2 tail) = Some g -> g = ds)
    as Huniq.
  { intros b2 g Hm.
    apply match_words_sound in Hm as Hshape'.
    eapply (match_group_is_the_digits EmptyString (String.append b2 tail) g b2 tail ds);
      [exact Hshape' | exact Hshape | reflexivity]. }
  induction before as [|c before IH].
  - rewrite append_nil, POST_PATTERN_search_unfold.
    by rewrite (POST_PATTERN_match_complete tail ds Hshape).
  - rewrite POST_PATTERN_search_unfold.
    destruct (Sitemap.POST_PATTERN_match (String.append (String c before) tail)) as [g|] eqn:Hm.
    + f_equal. by apply (Huniq (String c before) g).
    + rewrite append_cons. exact IH.
Qed.

(** A string that ends in one of the three words, an optional
    [-sitemap], digits and [.xml] is matched by [POST_PATTERN.search],
    and group 3 is exactly those digits, whatever stands before. *)
Theorem POST_PATTERN_search_complete (before word opt ds : string) :
  word ∈ ["post"; "article"; "news"]%string ->
  opt ∈ [EmptyString; "-sitemap"%string] ->
  Forall (fun c => Str.isdigit c = true) (Str.chars ds) ->
  Sitemap.POST_PATTERN_search
    (String.append before (String.append word (String.append opt (String.append ds ".xml"))))
  = Some ds.
Proof.
  intros Hw Hopt Hd. apply search_finds_suffix.
  exists word, opt, EmptyString. split_and!; [reflexivity | done | done | by left | done].
Qed.

(** **** The number an entry carries *)

Lemma digit_cases (c : ascii) :
  Str.isdigit c = true ->
  In c ["0"; "1"; "2"; "3"; "4"; "5"; "6"; "7"; "8"; "9"]%char.
Proof.
  destruct c as [[] [] [] [] [] [] [] []]; vm_compute; intros H;
    first [discriminate H | tauto].
Qed.

(** One digit of the fold of [int], against one digit of the numeral. *)
Ltac digit_step IH Hd Hstep acc k :=
  let u := fresh "u" in
  let Hu := fresh "Hu" in
  let Hv := fresh "Hv" in
  destruct (IH (k + 10 * acc)%nat Hd) as (u & Hu & Hv);
  rewrite (Hstep k eq_refl), Hv;
  simpl NilEmpty.uint_of_string; rewrite Hu; simpl uint_of_char;
  eexists; split; [reflexivity|];
  simpl Nat.of_uint_acc; rewrite Nat.tail_mul_spec; reflexivity.

(** The fold of [int] computes the value the Standard Library gives to
    the same digits as a decimal numeral. *)
Lemma int_go_decimal (s : string) (acc : nat) :
  Forall (fun c => Str.isdigit c = true) (Str.chars s) ->
  exists u,
    NilEmpty.uint_of_string s = Some u
    /\ Str.int_go (Z.of_nat acc) s = Z.of_nat (Nat.of_uint_acc u acc).
Proof.
  revert acc. induction s as [|c s IH]; intros acc Hd.
  - exists Decimal.Nil. split; reflexivity.
  - apply Forall_cons in Hd as [Hc Hd].
    apply digit_cases in Hc. simpl in Hc.
    assert (forall k : nat,
               Str.digit_value c = Z.of_nat k ->
               Str.int_go (Z.of_nat acc) (String c s)
               = Str.int_go (Z.of_nat (k + 10 * acc)) s) as Hstep.
    { intros k Hk. simpl. rewrite Hk. f_equal. lia. }
    destruct Hc as [<- | [<- | [<- | [<- | [<- | [<- | [<- | [<- | [<- | [<- | []]]]]]]]]]].
    + digit_step IH Hd Hstep acc 0%nat.
    + digit_step IH Hd Hstep acc 1%nat.
    + digit_step IH Hd Hstep acc 2%nat.
    + digit_step IH Hd Hstep acc 3%nat.
    + digit_step IH Hd Hstep acc 4%nat.
    + digit_step IH Hd Hstep acc 5%nat.
    + digit_step IH Hd Hstep acc 6%nat.
    + digit_step IH Hd Hstep acc 7%nat.
    + digit_step IH Hd Hstep acc 8%nat.
    + digit_step IH Hd Hstep acc 9%nat.
Qed.

Lemma int_go_is_decimal_value (ds : string) :
  Forall (fun c => Str.isdigit c = true) (Str.chars ds) ->
  Str.int_go 0 ds = Sitemap.decimal_value ds.
Proof.
  intros Hd. destruct (int_go_decimal ds 0 Hd) as (u & Hu & Hv).
  unfold Sitemap.decimal_value. rewrite Hu. exact Hv.
Qed.

(** [int(m.group(3) or 1)] on the digits of a match: the numeric suffix
    when there are at most 4300 digits, [ValueError] otherwise. *)
Lemma number_of_digits (ds : string) :
  Forall (fun c => Str.isdigit c = true) (Str.chars ds) ->
  ((String.length ds <= Str.int_max_str_digits)%nat ->
   Discover.number_of ds = Py.Returned (Sitemap.suffix_number ds))
  /\ ((Str.int_max_str_digits < String.length ds)%nat ->
      exists e, Discover.number_of ds = Py.Raised e /\ Py.exn_class e = Py.ValueError).
Proof.
  intros Hd. unfold Discover.number_of, Sitemap.suffix_number, Str.int. split.
  - intros Hlen. case_bool_decide; [reflexivity|].
    destruct (Nat.ltb_spec Str.int_max_str_digits (String.length ds)); [lia|].
    by rewrite int_go_is_decimal_value.
  - intros Hlen. case_bool_decide as He.
    { subst ds. simpl in Hlen. unfold Str.int_max_str_digits in Hlen. lia. }
    destruct (Nat.ltb_spec Str.int_max_str_digits (String.length ds)); [|lia].
    eexists. split; reflexivity.
Qed.

Lemma POST_PATTERN_search_complete_witness :
  Sitemap.POST_PATTERN_search "https://example.com/news-sitemap42.xml" = Some "42"%string.
Proof.
  apply (POST_PATTERN_search_complete "https://example.com/" "news" "-sitemap" "42").
  - right. right. left.
  - right. left.
  - repeat constructor.
Defined.

Lemma POST_PATTERN_search_sound_witness :
  exists before tail,
    "https://example.com/post-sitemap7.xml"%string = String.append before tail
    /\ Sitemap.matches_here tail "7".
Proof.
  apply (POST_PATTERN_search_sound "https://example.com/post-sitemap7.xml" "7").
  vm_compute. reflexivity.
Defined.

(** **** The candidates and their order *)

#[local] Instance tuple_ge_refl : Reflexive Discover.tuple_ge.
Proof. intros [n s]. right. split; [done | apply (reflexivity (R := String.le))]. Qed.

#[local] Instance tuple_ge_trans : Transitive Discover.tuple_ge.
Proof.
  intros [n1 s1] [n2 s2] [n3 s3]. unfold Discover.tuple_ge. simpl.
  intros [H12 | [-> H12]] [H23 | [-> H23]]; [left; lia | by left | by left |].
  right. split; [done|]. by etrans.
Qed.

#[local] Instance tuple_ge_total : Total Discover.tuple_ge.
Proof.
  intros [n1 s1] [n2 s2]. unfold Discover.tuple_ge. simpl.
  destruct (Z.lt_trichotomy n1 n2) as [H | [-> | H]].
  - right. left. lia.
  - destruct (total String.le s1 s2); [right | left]; by right.
  - left. left. lia.
Qed.

(** The first element after [sort(reverse=True)] is a candidate, and no
    candidate is greater. *)
Lemma sort_reverse_head (candidates : list (Z * string)) (c0 : Z * string)
    (rest : list (Z * string)) :
  Discover.sort_reverse candidates = c0 :: rest ->
  c0 ∈ candidates /\ forall c, c ∈ candidates -> Discover.tuple_ge c0 c.
Proof.
  intros Hs.
  pose proof (merge_sort_Permutation Discover.tuple_ge candidates) as Hp.
  pose proof (StronglySorted_merge_sort Discover.tuple_ge candidates) as Hss.
  unfold Discover.sort_reverse in Hs. rewrite Hs in Hp, Hss.
  split.
  - rewrite <- Hp. left.
  - intros c Hc. rewrite <- Hp in Hc.
    apply StronglySorted_inv in Hss as [_ Hall].
    apply elem_of_cons in Hc as [-> | Hc]; [reflexivity|].
    by eapply Forall_forall in Hall.
Qed.

Lemma sort_reverse_nonempty (candidates : list (Z * string)) :
  candidates ≠ [] -> exists c0 rest, Discover.sort_reverse candidates = c0 :: rest.
Proof.
  intros Hne. destruct (Discover.sort_reverse candidates) as [|c0 rest] eqn:E; [|eauto].
  pose proof (merge_sort_Permutation Discover.tuple_ge candidates) as Hp.
  unfold Discover.sort_reverse in E. rewrite E in Hp.
  symmetry in Hp. by apply Permutation_nil_r in Hp.
Qed.

Lemma tuple_ge_fst (a b : Z * string) : Discover.tuple_ge a b -> b.1 <= a.1.
Proof. intros [H | [H _]]; lia. Qed.

Lemma bind_Returned {A B : Type} (m : Py.result A) (k : A -> Py.result B) (b : B) :
  (x ← m; k x) = Py.Returned b <-> exists a, m = Py.Returned a /\ k a = Py.Returned b.
Proof.
  destruct m as [a|e]; simpl; split.
  - intros H. by exists a.
  - by intros (a' & [= <-] & H).
  - discriminate.
  - by intros (a' & H & _).
Qed.

Lemma bind_Raised {A B : Type} (m : Py.result A) (k : A -> Py.result B) (e : Py.exn) :
  (x ← m; k x) = Py.Raised e <->
  m = Py.Raised e \/ exists a, m = Py.Returned a /\ k a = Py.Raised e.
Proof.
  destruct m as [a|e']; simpl; split.
  - intros H. right. by exists a.
  - by intros [H | (a' & [= <-] & H)].
  - intros [= ->]. by left.
  - by intros [[= ->] | (a' & H & _)].
Qed.

(** [int(m.group(3) or 1)] raises only the [ValueError] of a digit run
    longer than the cap. *)
Lemma number_of_raises (g3 : string) (e : Py.exn) :
  Discover.number_of g3 = Py.Raised e ->
  (Str.int_max_str_digits < String.length g3)%nat /\ Py.exn_class e = Py.ValueError.
Proof.
  unfold Discover.number_of, Str.int. case_bool_decide; [discriminate|].
  destruct (Nat.ltb_spec Str.int_max_str_digits (String.length g3)); [|discriminate].
  intros [= <-]. done.
Qed.

Lemma candidate_of_Some (tag : string) (num : Z) (loc : string) :
  Discover.candidate_of tag = Py.Returned (Some (num, loc)) <->
  loc = Str.strip tag
  /\ exists g3, Sitemap.POST_PATTERN_search loc = Some g3
                /\ Discover.number_of g3 = Py.Returned num.
Proof.
  unfold Discover.candidate_of. split.
  - destruct (Sitemap.POST_PATTERN_search (Str.strip tag)) as [g3|] eqn:E; [|discriminate].
    intros (n & Hn & [= <- <-])%bind_Returned. split; [done|]. by exists g3.
  - intros (-> & g3 & -> & Hn). apply bind_Returned. by exists num.
Qed.

Lemma candidate_of_None (tag : string) :
  Discover.candidate_of tag = Py.Returned None <->
  Sitemap.POST_PATTERN_search (Str.strip tag) = None.
Proof.
  unfold Discover.candidate_of. split.
  - destruct (Sitemap.POST_PATTERN_search (Str.strip tag)) as [g3|]; [|done].
    intros (n & Hn & [=])%bind_Returned.
  - by intros ->.
Qed.

Lemma candidate_of_Raised (tag : string) (e : Py.exn) :
  Discover.candidate_of tag = Py.Raised e ->
  exists g3, Sitemap.POST_PATTERN_search (Str.strip tag) = Some g3
             /\ (Str.int_max_str_digits < String.length g3)%nat
             /\ Py.exn_class e = Py.ValueError.
Proof.
  unfold Discover.candidate_of.
  destruct (Sitemap.POST_PATTERN_search (Str.strip tag)) as [g3|]; [|discriminate].
  intros [Hn | (n & _ & [=])]%bind_Raised. exists g3. split; [done|].
  by apply number_of_raises.
Qed.

(** An entry whose stripped text ends in a match with at most 4300
    digits contributes its numeric suffix and that text. *)
Lemma candidate_of_shaped (tag before tail g : string) :
  Str.strip tag = String.append before tail ->
  Sitemap.matches_here tail g ->
  (String.length g <= Str.int_max_str_digits)%nat ->
  Discover.candidate_of tag = Py.Returned (Some (Sitemap.suffix_number g, Str.strip tag)).
Proof.
  intros Hs Hm Hlen. apply candidate_of_Some. split; [done|]. exists g. split.
  - rewrite Hs. by apply search_finds_suffix.
  - destruct Hm as (word & opt & nl & _ & _ & _ & _ & Hd).
    by apply number_of_digits.
Qed.

Lemma collect_candidates_cons (tag : string) (rest : list string) :
  Discover.collect_candidates (tag :: rest)
  = (c ← Discover.candidate_of tag;
     candidates ← Discover.collect_candidates rest;
     mret (match c with Some x => x :: candidates | None => candidates end)).
Proof. reflexivity. Qed.

Lemma appended_Returned (tag : string) (c : option (Z * string)) :
  Discover.candidate_of tag = Py.Returned c -> Discover.appended tag = c.
Proof. unfold Discover.appended. by intros ->. Qed.

Lemma omap_appended_cons (tag : string) (rest : list string) :
  omap Discover.appended (tag :: rest)
  = match Discover.appended tag with
    | Some x => x :: omap Discover.appended rest
    | None => omap Discover.appended rest
    end.
Proof. reflexivity. Qed.

(** When the loop completes, [candidates] holds what the entries
    contributed, in document order, and no entry raised. *)
Lemma collect_candidates_Returned (tags : list string) (cs : list (Z * string)) :
  Discover.collect_candidates tags = Py.Returned cs <->
  cs = omap Discover.appended tags
  /\ Forall (fun tag => exists c, Discover.candidate_of tag = Py.Returned c) tags.
Proof.
  revert cs. induction tags as [|tag rest IH]; intros cs.
  - simpl. split; [by intros [= <-] | by intros [-> _]].
  - rewrite collect_candidates_cons. split.
    + intros (c & Hc & (cs' & Hcs' & [= <-])%bind_Returned)%bind_Returned.
      apply IH in Hcs' as [-> Hall]. split.
      * rewrite omap_appended_cons, (appended_Returned _ _ Hc). by destruct c.
      * constructor; [by exists c | done].
    + intros [-> Hall]. apply Forall_cons in Hall as [[c Hc] Hall].
      apply bind_Returned. exists c. split; [done|].
      apply bind_Returned. exists (omap Discover.appended rest). split.
      * by apply IH.
      * rewrite omap_appended_cons, (appended_Returned _ _ Hc). by destruct c.
Qed.

Lemma collect_candidates_Raised (tags : list string) (e : Py.exn) :
  Discover.collect_candidates tags = Py.Raised e ->
  exists tag, tag ∈ tags /\ Discover.candidate_of tag = Py.Raised e.
Proof.
  induction tags as [|tag rest IH]; [discriminate|].
  rewrite collect_candidates_cons.
  intros [Hc | (c & _ & [Hr | (cs & _ & [=])]%bind_Raised)]%bind_Raised.
  - exists tag. split; [left | done].
  - destruct (IH Hr) as (tag' & Hin & Hc'). exists tag'. split; [by right | done].
Qed.

(** A tuple is among the collected candidates exactly when an entry
    contributed it. *)
Lemma elem_of_collected (tags : list string) (cs : list (Z * string)) (c : Z * string) :
  Discover.collect_candidates tags = Py.Returned cs ->
  c ∈ cs <-> exists tag, tag ∈ tags /\ Discover.candidate_of tag = Py.Returned (Some c).
Proof.
  intros [-> Hall]%collect_candidates_Returned.
  rewrite list_elem_of_omap. split.
  - intros (tag & Hin & Ha). exists tag. split; [done|].
    unfold Discover.appended in Ha.
    destruct (Discover.candidate_of tag) as [c'|e]; [by subst c' | discriminate].
  - intros (tag & Hin & Hc). exists tag. split; [done|].
    unfold Discover.appended. by rewrite Hc.
Qed.

Section SitemapProperties.

Variable http_get : nat -> string -> HttpOutcome.
Variable loc_texts : string -> list string.

Abbreviation fetch := (Discover.fetch http_get).
Abbreviation discover_latest_from_sitemap :=
  (Discover.discover_latest_from_sitemap http_get loc_texts).

(** The run of [discover_latest_from_sitemap] up to the second fetch. *)
Lemma discover_after_selection (k : nat) (url txt : string)
    (candidates : list (Z * string)) (c0 : Z * string) (rest : list (Z * string)) :
  fetch k url = Py.Returned (Some txt) ->
  txt ≠ EmptyString ->
  Discover.collect_candidates (loc_texts txt) = Py.Returned candidates ->
  Discover.sort_reverse candidates = c0 :: rest ->
  discover_latest_from_sitemap k url
  = (sitemap_xml ← fetch (S k) c0.2;
     urls ← Discover.soup_find_all_loc loc_texts sitemap_xml;
     if bool_decide (urls = []) then mret None else
     tag ← Py.getitem_last urls;
     mret (Some {| art_url := Str.strip tag;
                   art_source := c0.2;
                   art_title := Discover.title_of (Str.strip tag) |})).
Proof.
  intros Hf Htxt Hc Hs. unfold Discover.discover_latest_from_sitemap.
  rewrite Hf. simpl. rewrite bool_decide_eq_false_2 by done. simpl.
  rewrite Hc. simpl.
  assert (candidates ≠ []) as Hne.
  { intros E. rewrite E in Hs. discriminate Hs. }
  rewrite (bool_decide_eq_false_2 _ Hne). rewrite Hs. reflexivity.
Qed.

(** The defect behind C5: when the index names a post sitemap and the
    fetch of that sitemap answers with a status other than 200, the
    [None] that [fetch] returns is handed to the parser, which raises. *)
Lemma discover_raises_without_second_body (k : nat) (url txt : string)
    (candidates : list (Z * string)) (status_code : Z) (body : string) :
  fetch k url = Py.Returned (Some txt) ->
  txt ≠ EmptyString ->
  Discover.collect_candidates (loc_texts txt) = Py.Returned candidates ->
  candidates ≠ [] ->
  (forall latest_url, http_get (S k) latest_url = Response status_code body) ->
  status_code ≠ 200 ->
  discover_latest_from_sitemap k url
  = Py.Raised (Py.Exn Py.TypeError "object of type 'NoneType' has no len()").
Proof.
  intros Hf Htxt Hc Hne Hget Hst.
  destruct (sort_reverse_nonempty _ Hne) as (c0 & rest & Hs).
  rewrite (discover_after_selection _ _ _ _ _ _ Hf Htxt Hc Hs).
  unfold Discover.fetch. rewrite Hget. rewrite bool_decide_eq_false_2 by done.
  reflexivity.
Qed.

End SitemapProperties.

(** C5 fails on the code: the sitemap index answers 200 and lists
    [post-sitemap.xml] and [post-sitemap2.xml], the fetch of the selected
    sitemap answers 404, and [discover_latest_from_sitemap] raises
    [TypeError] instead of returning a record or not-found. *)
Theorem discover_raises_on_missing_sitemap :
  Discover.discover_latest_from_sitemap Examples.web_missing Examples.loc_texts 0
    "https://example.com/sitemap_index.xml"
  = Py.Raised (Py.Exn Py.TypeError "object of type 'NoneType' has no len()").
Proof. vm_compute. reflexivity. Qed.

(** **** Title case *)

Lemma replace_append (a b : ascii) (s t : string) :
  Str.replace a b (String.append s t)
  = String.append (Str.replace a b s) (Str.replace a b t).
Proof.
  induction s as [|c s IH]; [reflexivity|].
  rewrite append_cons. simpl. rewrite IH. reflexivity.
Qed.

Lemma hyphen_is_not_alpha (c : ascii) :
  Str.isalpha c = true -> Ascii.eqb c "-" = false.
Proof.
  intros H. apply Ascii.eqb_neq. intros ->. vm_compute in H. discriminate H.
Qed.

Lemma replace_letters (w : string) :
  Forall (fun c => Str.isalpha c = true) (Str.chars w) ->
  Str.replace "-" " " w = w.
Proof.
  induction w as [|c w IH]; [reflexivity|].
  intros Hw. apply Forall_cons in Hw as [Hc Hw]. simpl.
  rewrite (hyphen_is_not_alpha c Hc), IH by done. reflexivity.
Qed.

(** Inside a word, title case lower-cases. *)
Lemma title_go_inside (w rest : string) :
  Forall (fun c => Str.isalpha c = true) (Str.chars w) ->
  Str.title_go true (String.append w rest)
  = String.append (Str.lower_all w) (Str.title_go true rest).
Proof.
  induction w as [|c w IH]; [reflexivity|].
  intros Hw. apply Forall_cons in Hw as [Hc Hw].
  rewrite append_cons. simpl. unfold Str.isalpha in Hc. rewrite Hc.
  rewrite IH by done. reflexivity.
Qed.

(** At the start of a word, title case capitalizes it. *)
Lemma title_go_word (w rest : string) :
  Str.is_word w ->
  Str.title_go false (String.append w rest)
  = String.append (Str.capitalize w) (Str.title_go true rest).
Proof.
  intros [Hne Hw]. destruct w as [|c w]; [done|].
  apply Forall_cons in Hw as [Hc Hw].
  rewrite append_cons. simpl. unfold Str.isalpha in Hc. rewrite Hc.
  rewrite title_go_inside by done. reflexivity.
Qed.

Lemma title_go_hyphenated (ws : list string) :
  Forall Str.is_word ws ->
  Str.title_go false (Str.replace "-" " " (Str.join "-" ws))
  = Str.join " " (map Str.capitalize ws).
Proof.
  induction ws as [|w ws IH]; [reflexivity|].
  intros Hws. apply Forall_cons in Hws as [Hw Hws].
  destruct ws as [|w' ws].
  - simpl. rewrite replace_letters by apply Hw.
    rewrite <- (append_empty_r w) at 1. rewrite title_go_word by done.
    simpl. apply append_empty_r.
  - change (Str.join "-" (w :: w' :: ws))
      with (String.append w (String.append "-" (Str.join "-" (w' :: ws)))).
    change (Str.join " " (map Str.capitalize (w :: w' :: ws)))
      with (String.append (Str.capitalize w)
              (String.append " " (Str.join " " (map Str.capitalize (w' :: ws))))).
    rewrite replace_append, replace_letters by apply Hw.
    rewrite title_go_word by done. f_equal.
    rewrite replace_append. simpl. rewrite append_cons, append_nil. simpl.
    rewrite append_cons, append_nil. f_equal. by apply IH.
Qed.

(** The title of a URL whose final segment is hyphen-separated words of
    letters: the words, each capitalized, separated by spaces. *)
Lemma title_of_hyphenated (before : string) (ws : list string) :
  Forall Str.is_word ws ->
  Discover.title_of (String.append before (String "/" (Str.join "-" ws)))
  = Str.join " " (map Str.capitalize ws).
Proof.
  intros Hws. unfold Discover.title_of, Str.title.
  rewrite <- title_go_hyphenated by done. do 2 f_equal.
  destruct (final_segment_spec (String.append before (String "/" (Str.join "-" ws))))
    as [Hno Hshape].
  set (seg := List.last _ _) in *.
  (* both [seg] and the joined words follow the last slash of the URL *)
  assert (forall s t u v : string,
             ~ In "/"%char (Str.chars t) -> ~ In "/"%char (Str.chars v) ->
             String.append s (String "/" t) = String.append u (String "/" v) ->
             t = v) as Huniq.
  { clear. intros s. induction s as [|c s IH]; intros t u v Ht Hv Heq.
    - destruct u as [|d u].
      + by injection Heq.
      + rewrite append_nil, append_cons in Heq. injection Heq as Hd Ht'. subst d t.
        exfalso. apply Ht. clear. induction u as [|e u IHu]; simpl; [by left|].
        right. exact IHu.
    - destruct u as [|d u].
      + rewrite append_nil, append_cons in Heq. injection Heq as Hc Hv'. subst c v.
        exfalso. apply Hv. clear. induction s as [|e s IHs]; simpl; [by left|].
        right. exact IHs.
      + rewrite !append_cons in Heq. injection Heq as Hc Heq. by eapply IH. }
  assert (~ In "/"%char (Str.chars (Str.join "-" ws))) as Hjoin.
  { clear -Hws. induction ws as [|w ws IH]; simpl; [tauto|].
    apply Forall_cons in Hws as [[_ Hw] Hws].
    assert (~ In "/"%char (Str.chars w)) as Hnw.
    { intros Hin. eapply Forall_forall in Hw; [|apply list_elem_of_In, Hin].
      vm_compute in Hw. discriminate Hw. }
    destruct ws as [|w' ws]; [exact Hnw|].
    assert (forall s t, In "/"%char (Str.chars (String.append s t)) ->
                        In "/"%char (Str.chars s) \/ In "/"%char (Str.chars t)) as Happ.
    { clear. intros s t. induction s as [|c s IHs]; [by right|].
      rewrite append_cons. simpl. intros [H | H]; [by left; left|].
      destruct (IHs H); [left; by right | by right]. }
    intros Hin. apply Happ in Hin as [Hin | Hin]; [by apply Hnw|].
    apply Happ in Hin as [Hin | Hin].
    - simpl in Hin. destruct Hin as [Hin | []]. discriminate Hin.
    - by apply IH. }
  destruct Hshape as [Heq | [before' Heq]].
  - exfalso. apply Hno. rewrite <- Heq. clear.
    induction before as [|c s IHs]; simpl; [by left | right; exact IHs].
  - symmetry. by eapply Huniq.
Qed.

(** **** The selected sitemap and the latest article *)

Section SitemapSelection.

Variable http_get : nat -> string -> HttpOutcome.
Variable loc_texts : string -> list string.

(** Every entry of the index completes line 30 when no matching entry
    carries more digits than [int] accepts. *)
Lemma candidates_all_return (tags : list string) :
  (forall tag before tail g,
      tag ∈ tags ->
      Str.strip tag = String.append before tail ->
      Sitemap.matches_here tail g ->
      (String.length g <= Str.int_max_str_digits)%nat) ->
  Discover.collect_candidates tags = Py.Returned (omap Discover.appended tags).
Proof.
  intros Hcap. apply collect_candidates_Returned. split; [done|].
  apply Forall_forall. intros tag Htag.
  destruct (Discover.candidate_of tag) as [c|e] eqn:E; [by exists c|].
  apply candidate_of_Raised in E as (g3 & Hg3 & Hlong & _).
  apply search_match_shape in Hg3 as (before & tail & Hs & Hm).
  pose proof (Hcap tag before tail g3 Htag Hs Hm). lia.
Qed.

(** C10: when the index is fetched, one of its [<loc>] texts ends in a
    post, article or news sitemap file name, and no such entry carries
    more than 4300 digits, discovery selects an entry of that shape whose
    numeric suffix (the decimal value of the digits before [.xml], 1 when
    there are none) is the greatest among the entries of that shape; when
    the fetch of that sitemap gives a body with a [<loc>], the result has
    the last [<loc>] text as [url], the selected sitemap as [source], and
    as [title] the text after the URL's last slash with hyphens replaced
    by spaces, in title case: for hyphen-separated words of letters, the
    words, each capitalized, separated by spaces. *)
Theorem sitemap_selects_latest (k : nat) (url txt tag0 before0 tail0 g0 : string) :
  Discover.fetch http_get k url = Py.Returned (Some txt) ->
  txt ≠ EmptyString ->
  tag0 ∈ loc_texts txt ->
  Str.strip tag0 = String.append before0 tail0 ->
  Sitemap.matches_here tail0 g0 ->
  (forall tag before tail g,
      tag ∈ loc_texts txt ->
      Str.strip tag = String.append before tail ->
      Sitemap.matches_here tail g ->
      (String.length g <= 4300)%nat) ->
  exists num latest_url,
    (exists tag before tail g,
        tag ∈ loc_texts txt
        /\ latest_url = Str.strip tag
        /\ latest_url = String.append before tail
        /\ Sitemap.matches_here tail g
        /\ num = Sitemap.suffix_number g)
    /\ (forall tag before tail g,
        tag ∈ loc_texts txt ->
        Str.strip tag = String.append before tail ->
        Sitemap.matches_here tail g ->
        Sitemap.suffix_number g <= num)
    /\ (forall xml tag,
        Discover.fetch http_get (S k) latest_url = Py.Returned (Some xml) ->
        last (loc_texts xml) = Some tag ->
        exists seg title,
          ~ In "/"%char (Str.chars seg)
          /\ (Str.strip tag = seg
              \/ exists before, Str.strip tag = String.append before (String "/" seg))
          /\ title = Str.title (Str.replace "-" " " seg)
          /\ (forall ws, Forall Str.is_word ws -> seg = Str.join "-" ws ->
                         title = Str.join " " (map Str.capitalize ws))
          /\ Discover.discover_latest_from_sitemap http_get loc_texts k url
             = Py.Returned
                 (Some {| art_url := Str.strip tag;
                          art_source := latest_url;
                          art_title := title |})).
Proof.
  intros Hf Htxt Htag0 Hs0 Hm0 Hcap.
  pose proof (candidates_all_return (loc_texts txt) Hcap) as Hcollect.
  set (candidates := omap Discover.appended (loc_texts txt)) in *.
  assert (forall tag before tail g,
             tag ∈ loc_texts txt ->
             Str.strip tag = String.append before tail ->
             Sitemap.matches_here tail g ->
             (Sitemap.suffix_number g, Str.strip tag) ∈ candidates) as Hshaped.
  { intros tag before tail g Htag Hs Hm.
    apply (elem_of_collected _ _ _ Hcollect). exists tag. split; [done|].
    apply (candidate_of_shaped tag before tail g Hs Hm).
    by apply (Hcap tag before tail g). }
  assert (candidates ≠ []) as Hne.
  { intros E. pose proof (Hshaped _ _ _ _ Htag0 Hs0 Hm0) as Hin0.
    rewrite E in Hin0. by apply not_elem_of_nil in Hin0. }
  destruct (sort_reverse_nonempty _ Hne) as ([num latest_url] & rest & Hs).
  destruct (sort_reverse_head _ _ _ Hs) as [Hin Hmax].
  exists num, latest_url. split_and!.
  - apply (elem_of_collected _ _ _ Hcollect) in Hin as (tag & Htag & Hc).
    apply candidate_of_Some in Hc as (-> & g3 & Hg3 & Hnum).
    destruct (search_match_shape _ _ Hg3) as (before & tail & Hshape & Hm).
    exists tag, before, tail, g3. split_and!; try done.
    pose proof (Hcap tag before tail g3 Htag Hshape Hm) as Hlen.
    destruct Hm as (word & opt & nl & _ & _ & _ & _ & Hd).
    destruct (number_of_digits g3 Hd) as [Hvalue _].
    rewrite (Hvalue Hlen) in Hnum. by injection Hnum.
  - intros tag before tail g Htag Hshape Hm.
    pose proof (Hshaped _ _ _ _ Htag Hshape Hm) as Hc.
    apply Hmax, tuple_ge_fst in Hc. exact Hc.
  - intros xml tag Hx Hlast.
    destruct (final_segment_spec (Str.strip tag)) as [Hno Hshape].
    eexists _, _. split; [exact Hno|]. split; [exact Hshape|].
    split; [reflexivity|]. split.
    { intros ws Hws ->. unfold Str.title. by apply title_go_hyphenated. }
    rewrite (discover_after_selection _ _ _ _ _ _ _ _ Hf Htxt Hcollect Hs). simpl.
    rewrite Hx. simpl.
    assert (loc_texts xml ≠ []) as Hurls.
    { intros E. rewrite E in Hlast. discriminate Hlast. }
    rewrite (bool_decide_eq_false_2 _ Hurls).
    unfold Py.getitem_last. rewrite Hlast. reflexivity.
Qed.

End SitemapSelection.

(** The entries of the example index carry at most one digit. *)
Lemma example_index_numbers (tag before tail g : string) :
  tag ∈ Examples.loc_texts Examples.index_xml ->
  Str.strip tag = String.append before tail ->
  Sitemap.matches_here tail g ->
  (String.length g <= 4300)%nat.
Proof.
  intros Htag Hs Hm.
  pose proof (search_finds_suffix before tail g Hm) as Hsearch.
  rewrite <- Hs in Hsearch.
  apply list_elem_of_In in Htag. vm_compute in Htag.
  destruct Htag as [<- | [<- | [<- | []]]]; vm_compute in Hsearch;
    [ | | discriminate Hsearch ]; injection Hsearch as <-; simpl; lia.
Qed.

(** On the example site the index lists [post-sitemap.xml] and
    [post-sitemap2.xml]; the second is selected, with number 2, and its
    last entry is the latest article. *)
Lemma sitemap_selects_latest_witness :
  exists num latest_url,
    (forall tag before tail g,
        tag ∈ Examples.loc_texts Examples.index_xml ->
        Str.strip tag = String.append before tail ->
        Sitemap.matches_here tail g ->
        Sitemap.suffix_number g <= num)
    /\ exists tag before tail g,
         tag ∈ Examples.loc_texts Examples.index_xml
         /\ latest_url = Str.strip tag
         /\ latest_url = String.append before tail
         /\ Sitemap.matches_here tail g
         /\ num = Sitemap.suffix_number g.
Proof.
  destruct (sitemap_selects_latest Examples.web Examples.loc_texts 0
              "https://example.com/sitemap_index.xml" Examples.index_xml
              "https://example.com/post-sitemap.xml"
              "https://example.com/" "post-sitemap.xml" EmptyString) as
    (num & latest_url & Hsel & Hmax & _).
  - reflexivity.
  - discriminate.
  - vm_compute. left.
  - reflexivity.
  - exists "post"%string, "-sitemap"%string, EmptyString.
    split_and!; [reflexivity | in_list | in_list | in_list | constructor].
  - exact example_index_numbers.
  - exists num, latest_url. split; [exact Hmax | exact Hsel].
Defined.

(** C10 does not hold of every fetched index: an entry whose file
    name carries 4301 digits makes [int] raise at line 30, although the
    index was fetched and every sitemap of the site answers with
    articles. *)
Lemma sitemap_selects_latest_counterexample :
  Discover.fetch Examples.web_long 0 "https://example.com/sitemap_index.xml"
  = Py.Returned (Some Examples.long_index_xml)
  /\ Examples.loc_texts Examples.long_index_xml
     = [String.append "https://example.com/post-sitemap"
          (String.append (Examples.nines 4301) ".xml")]
  /\ Examples.loc_texts Examples.posts_xml
     = ["https://example.com/hello-world"; "https://example.com/blog/my-first-post"]%string
  /\ Discover.discover_latest_from_sitemap Examples.web_long Examples.loc_texts 0
       "https://example.com/sitemap_index.xml"
     = Py.Raised
         (Py.Exn Py.ValueError
            "Exceeds the limit (4300 digits) for integer string conversion: value has 4301 digits; use sys.set_int_max_str_digits() to increase the limit").
Proof. split_and!; vm_compute; reflexivity. Qed.

(** The example run end to end. *)
Example discover_on_example_site :
  Discover.discover_latest_from_sitemap Examples.web Examples.loc_texts 0
    "https://example.com/sitemap_index.xml"
  = Py.Returned
      (Some {| art_url := "https://example.com/blog/my-first-post";
               art_source := "https://example.com/post-sitemap2.xml";
               art_title := "My First Post" |}).
Proof. vm_compute. reflexivity. Qed.
(* --------------------------------------------------------------------- *)
(** *** The run executor                                                  *)
(* --------------------------------------------------------------------- *)

Section RunProperties.

Variable time_time : nat -> Z.
Variable run_campaign_async :
  Main.Cfg -> string -> Main.World -> Py.result unit * Main.World.

Abbreviation _background_run := (Main._background_run time_time run_campaign_async).

(** The [finally] clause always completes: it publishes the terminal
    event and then removes the registry entry. *)
Lemma background_finally_spec (run_id : string) (w : Main.World) :
  Main.background_finally time_time run_id w
  = (Py.Returned (),
     {| Main.RUN_TASKS := delete run_id (Main.RUN_TASKS w);
        Main.ws_manager := Hub.send run_id (Main.finished_event time_time w) (Main.ws_manager w);
        Main.loop_ready := Main.loop_ready w;
        Main.clock_reads := S (Main.clock_reads w);
        Main.uuid_draws := Main.uuid_draws w;
        Main.trace := Main.trace w
                      ++ [Main.Send run_id (Main.finished_event time_time w); Main.Pop run_id] |}).
Proof.
  unfold Main.background_finally. simpl.
  rewrite dict_pop_default_returns. simpl.
  unfold Main.emit, Main.set_RUN_TASKS. simpl.
  by rewrite <- app_assoc.
Qed.

Lemma background_except_spec (run_id : string) (e : Py.exn) (w : Main.World) :
  Main.background_except time_time run_id e w
  = {| Main.RUN_TASKS := Main.RUN_TASKS w;
       Main.ws_manager := Hub.send run_id (Main.error_event time_time e w) (Main.ws_manager w);
       Main.loop_ready := Main.loop_ready w;
       Main.clock_reads := S (Main.clock_reads w);
       Main.uuid_draws := Main.uuid_draws w;
       Main.trace := Main.trace w ++ [Main.Send run_id (Main.error_event time_time e w)] |}.
Proof. reflexivity. Qed.

(** What [_background_run] adds to the trace once the stage sequence
    has ended in [executed]: the error event when an [Exception] was
    caught, then the terminal event, then the removal. *)
Lemma background_run_trace (cfg : Main.Cfg) (run_id : string) (w : Main.World) :
  let outcome := (run_campaign_async cfg run_id w).1 in
  let executed := (run_campaign_async cfg run_id w).2 in
  let final := (_background_run cfg run_id w).2 in
  exists errors t,
    Main.trace final
    = Main.trace executed ++ errors
      ++ [Main.Send run_id {| ts := t; level := INFO; text := "Run finished" |};
          Main.Pop run_id]
    /\ Main.RUN_TASKS final = delete run_id (Main.RUN_TASKS executed)
    /\ match outcome with
       | Py.Returned _ => errors = []
       | Py.Raised e =>
           if Py.is_Exception e
           then errors = [Main.Send run_id (Main.error_event time_time e executed)]
           else errors = []
       end.
Proof.
  unfold Main._background_run.
  destruct (run_campaign_async cfg run_id w) as [[[]|e] w1]; simpl.
  - rewrite background_finally_spec. simpl.
    exists [], (time_time (Main.clock_reads w1)). done.
  - destruct (Py.is_Exception e) eqn:He.
    + rewrite background_finally_spec, background_except_spec. simpl.
      eexists [_], _. split_and!; [|done..]. by rewrite <- app_assoc.
    + rewrite background_finally_spec. simpl.
      exists [], (time_time (Main.clock_reads w1)). done.
Qed.

(** C1: whatever the stage sequence did and however it ended
    (returned, raised an [Exception], or raised something else), what
    [_background_run] does after it contains exactly one INFO
    "Run finished" event; that event is the last one published for the
    run id, and the removal of the registry entry follows it directly
    and ends the run. *)
Theorem background_run_finishes_once (cfg : Main.Cfg) (run_id : string)
    (w : Main.World) :
  let executed := (run_campaign_async cfg run_id w).2 in
  let final := (_background_run cfg run_id w).2 in
  exists after_execution t,
    let finished := {| ts := t; level := INFO; text := "Run finished" |} in
    Main.trace final = Main.trace executed ++ after_execution
    /\ length (List.filter Main.is_run_finished after_execution) = 1%nat
    /\ last (Main.published_for run_id after_execution) = Some finished
    /\ (exists earlier,
          after_execution = earlier ++ [Main.Send run_id finished; Main.Pop run_id])
    /\ Main.RUN_TASKS final !! run_id = None.
Proof.
  intros executed final.
  destruct (background_run_trace cfg run_id w) as (errors & t & Htr & Hreg & Herr).
  fold executed final in Htr, Hreg, Herr.
  exists (errors ++ [Main.Send run_id {| ts := t; level := INFO; text := "Run finished" |};
                    Main.Pop run_id]), t.
  simpl. split_and!.
  - exact Htr.
  - assert (errors = [] \/ exists e, errors = [Main.Send run_id (Main.error_event time_time e executed)])
      as [-> | [e ->]].
    { destruct ((run_campaign_async cfg run_id w).1) as [|e]; [by left|].
      destruct (Py.is_Exception e); [right; by exists e | by left]. }
    + reflexivity.
    + reflexivity.
  - assert (errors = [] \/ exists e, errors = [Main.Send run_id (Main.error_event time_time e executed)])
      as [-> | [e ->]].
    { destruct ((run_campaign_async cfg run_id w).1) as [|e]; [by left|].
      destruct (Py.is_Exception e); [right; by exists e | by left]. }
    + simpl. rewrite bool_decide_eq_true_2 by done. reflexivity.
    + simpl. rewrite bool_decide_eq_true_2 by done. reflexivity.
  - by exists errors.
  - rewrite Hreg. apply lookup_delete_eq.
Qed.

(** C2: when the stage sequence raises an [Exception], [_background_run]
    returns normally; after the stage sequence it publishes exactly one
    ERROR event, whose text ends with the exception's description, then
    the terminal event, and removes the entry.  The worker of
    worker.py does the same with its fetch: one [[ERROR]] line with the
    description, then completion. *)
Theorem background_run_catches_exceptions (cfg : Main.Cfg) (run_id : string)
    (w executed : Main.World) (e : Py.exn) :
  run_campaign_async cfg run_id w = (Py.Raised e, executed) ->
  Py.is_Exception e = true ->
  exists t1 t2 final,
    let failed :=
      {| ts := t1; level := ERROR;
         text := String.append "Background run error: " (Py.exn_str e) |} in
    _background_run cfg run_id w = (Py.Returned (), final)
    /\ Main.trace final
       = Main.trace executed
         ++ [Main.Send run_id failed;
             Main.Send run_id {| ts := t2; level := INFO; text := "Run finished" |};
             Main.Pop run_id]
    /\ Str.contains (text failed) (Py.exn_str e)
    /\ Worker.run_campaign_worker (Py.Raised e)
       = (["[INFO] Starting worker..."%string;
           String.append "[ERROR] " (Py.exn_str e);
           "[INFO] Worker complete"%string], Py.Returned ())
    /\ Str.contains (String.append "[ERROR] " (Py.exn_str e)) (Py.exn_str e).
Proof.
  intros Hrun He.
  eexists _, _, _. simpl. split_and!.
  - unfold Main._background_run. rewrite Hrun, He.
    rewrite background_finally_spec, background_except_spec. simpl. reflexivity.
  - simpl. by rewrite <- app_assoc.
  - apply contains_suffix.
  - unfold Worker.run_campaign_worker. by rewrite He.
  - apply contains_suffix.
Qed.

(** [_background_run] itself never closes a channel set of the hub: after
    the stage sequence it only publishes. *)
Lemma background_run_leaves_channels_open (cfg : Main.Cfg) (run_id : string)
    (w : Main.World) :
  let executed := (run_campaign_async cfg run_id w).2 in
  let final := (_background_run cfg run_id w).2 in
  Hub.closed (Main.ws_manager final) = Hub.closed (Main.ws_manager executed).
Proof.
  assert (forall id ev h, Hub.closed (Hub.send id ev h) = Hub.closed h) as Hsend.
  { intros id ev h. unfold Hub.send. by case_bool_decide. }
  unfold Main._background_run.
  destruct (run_campaign_async cfg run_id w) as [[[]|e] w1]; simpl.
  - rewrite background_finally_spec. simpl. apply Hsend.
  - destruct (Py.is_Exception e).
    + rewrite background_finally_spec, background_except_spec. simpl.
      by rewrite !Hsend.
    + rewrite background_finally_spec. simpl. apply Hsend.
Qed.

(** C9: the removal at the end of a run, [RUN_TASKS.pop(run_id, None)] in
    the [finally] clause, never raises; when the entry is absent it
    leaves the registry as it is; otherwise it deletes that entry and no
    other; and a second removal completes and changes nothing.
    [_background_run] as a whole ends with the entry of its run gone and
    every other entry as the stage sequence left it, and what it raises,
    if anything, is what the stage sequence raised. *)
Theorem registry_remove_idempotent (cfg : Main.Cfg) (run_id : string) (w : Main.World) :
  let removed := Main.background_finally time_time run_id w in
  let again := Main.background_finally time_time run_id removed.2 in
  let executed := (run_campaign_async cfg run_id w).2 in
  let final := (_background_run cfg run_id w).2 in
  removed.1 = Py.Returned ()
  /\ (Main.RUN_TASKS w !! run_id = None -> Main.RUN_TASKS removed.2 = Main.RUN_TASKS w)
  /\ Main.RUN_TASKS removed.2 !! run_id = None
  /\ (forall other, other ≠ run_id ->
        Main.RUN_TASKS removed.2 !! other = Main.RUN_TASKS w !! other)
  /\ again.1 = Py.Returned ()
  /\ Main.RUN_TASKS again.2 = Main.RUN_TASKS removed.2
  /\ Main.RUN_TASKS final !! run_id = None
  /\ (forall other, other ≠ run_id ->
        Main.RUN_TASKS final !! other = Main.RUN_TASKS executed !! other)
  /\ (Main.RUN_TASKS executed !! run_id = None ->
      Main.RUN_TASKS final = Main.RUN_TASKS executed)
  /\ (forall e, (_background_run cfg run_id w).1 = Py.Raised e ->
                (run_campaign_async cfg run_id w).1 = Py.Raised e).
Proof.
  intros removed again executed final.
  assert (forall w', (Main.background_finally time_time run_id w').1 = Py.Returned ()
                     /\ Main.RUN_TASKS (Main.background_finally time_time run_id w').2
                        = delete run_id (Main.RUN_TASKS w')) as Hfin.
  { intros w'. by rewrite background_finally_spec. }
  destruct (Hfin w) as [Hret Hreg]. destruct (Hfin removed.2) as [Hret' Hreg'].
  destruct (background_run_trace cfg run_id w) as (errors & t & _ & Hfinal & _).
  fold executed final in Hfinal.
  split_and!.
  - exact Hret.
  - intros Habsent. subst removed. rewrite Hreg. by apply delete_id.
  - subst removed. rewrite Hreg. apply lookup_delete_eq.
  - intros other Hne. subst removed. rewrite Hreg. by apply lookup_delete_ne.
  - exact Hret'.
  - subst again. rewrite Hreg'. apply delete_id.
    subst removed. rewrite Hreg. apply lookup_delete_eq.
  - rewrite Hfinal. apply lookup_delete_eq.
  - intros other Hne. rewrite Hfinal. by apply lookup_delete_ne.
  - intros Habsent. rewrite Hfinal. by apply delete_id.
  - intros e. unfold Main._background_run.
    destruct (run_campaign_async cfg run_id w) as [[[]|e'] w1]; simpl.
    + by rewrite background_finally_spec.
    + destruct (Py.is_Exception e').
      * by rewrite background_finally_spec.
      * rewrite background_finally_spec. simpl. done.
Qed.

End RunProperties.

(** A run whose stage sequence raises [RuntimeError("fetch failed")]. *)
Lemma background_run_catches_exceptions_witness :
  exists final,
    Main._background_run Examples.clock Examples.failing_run ∅ "run-1" Examples.world0
    = (Py.Returned (), final)
    /\ Main.trace final
       = [Main.Send "run-1" {| ts := 1700000000; level := ERROR;
                               text := "Background run error: fetch failed" |};
          Main.Send "run-1" {| ts := 1700000001; level := INFO; text := "Run finished" |};
          Main.Pop "run-1"].
Proof.
  destruct (background_run_catches_exceptions Examples.clock Examples.failing_run
              ∅ "run-1" Examples.world0 Examples.world0 Examples.stage_failure
              eq_refl eq_refl) as (t1 & t2 & final & Hres & _).
  exists final. split; [exact Hres|].
  injection Hres as <-. reflexivity.
Defined.

(** C2 fails on the code for an exception that is not an
    [Exception]: a run that is cancelled during stage execution gets no
    ERROR event, only the terminal event and the removal, and the
    cancellation leaves [_background_run]. *)
Lemma background_run_catches_exceptions_counterexample :
  Examples.cancelled_run ∅ "run-1" Examples.world0
  = (Py.Raised (Py.Exn Py.CancelledError EmptyString), Examples.world0)
  /\ (Main._background_run Examples.clock Examples.cancelled_run ∅ "run-1" Examples.world0).1
     = Py.Raised (Py.Exn Py.CancelledError EmptyString)
  /\ Main.trace
       (Main._background_run Examples.clock Examples.cancelled_run ∅ "run-1" Examples.world0).2
     = [Main.Send "run-1" {| ts := 1700000000; level := INFO; text := "Run finished" |};
        Main.Pop "run-1"].
Proof. split_and!; reflexivity. Qed.

(** Two runs are registered and the one under ["a"] ends: its entry is
    removed, the entry under ["b"] stays, and a second removal changes
    nothing. *)
Lemma registry_remove_idempotent_witness :
  (Main.background_finally Examples.clock "a" Examples.two_runs).1 = Py.Returned ()
  /\ Main.RUN_TASKS (Main.background_finally Examples.clock "a" Examples.two_runs).2
       !! "a"%string = None
  /\ Main.RUN_TASKS (Main.background_finally Examples.clock "a" Examples.two_runs).2
       !! "b"%string = Some (Main.mkTask ∅ "b")
  /\ (Main.background_finally Examples.clock "a"
        (Main.background_finally Examples.clock "a" Examples.two_runs).2).1
     = Py.Returned ()
  /\ Main.RUN_TASKS
       (Main.background_finally Examples.clock "a"
          (Main.background_finally Examples.clock "a" Examples.two_runs).2).2
     = Main.RUN_TASKS (Main.background_finally Examples.clock "a" Examples.two_runs).2.
Proof.
  destruct (registry_remove_idempotent Examples.clock Examples.quiet_run ∅ "a"
              Examples.two_runs)
    as (Hret & _ & Ha & Hother & Hret' & Hsame & _).
  split_and!; [exact Hret | exact Ha | | exact Hret' | exact Hsame].
  rewrite Hother by done. reflexivity.
Defined.

(* --------------------------------------------------------------------- *)
(** *** The start endpoint                                                *)
(* --------------------------------------------------------------------- *)

Section StartProperties.

Variable uuid4 : nat -> string.

(** The uuid source never repeats an identifier. *)
Hypothesis uuid4_never_repeats : forall i j, uuid4 i = uuid4 j -> i = j.

(** C3: the endpoint draws a new identifier, which names no entry of
    the registry; hands the task for [_background_run(cfg, run_id)] to
    the event loop, where it waits unstarted; registers it under the
    identifier; and answers with [success = True] and that identifier.
    Nothing is published, the clock is not read, and no step of the
    stage sequence runs before the answer: the only effects are the
    creation of the task and its registration. *)
Theorem start_run_returns_immediately (campaign : Main.Cfg) (w : Main.World) :
  Main.registry_drawn uuid4 w ->
  let run_id := uuid4 (Main.uuid_draws w) in
  let task := {| Main.task_cfg := campaign; Main.task_run_id := run_id |} in
  let response := (Main.run_campaign_async_endpoint uuid4 campaign w).1 in
  let after := (Main.run_campaign_async_endpoint uuid4 campaign w).2 in
  response = {| Main.success := true; Main.run_id_of := run_id |}
  /\ Main.RUN_TASKS w !! run_id = None
  /\ Main.RUN_TASKS after = <[run_id := task]> (Main.RUN_TASKS w)
  /\ Main.loop_ready after = Main.loop_ready w ++ [task]
  /\ Main.trace after = Main.trace w ++ [Main.CreateTask task; Main.Register run_id]
  /\ Main.ws_manager after = Main.ws_manager w
  /\ Main.clock_reads after = Main.clock_reads w
  /\ Main.uuid_draws after = S (Main.uuid_draws w)
  /\ Main.registry_drawn uuid4 after.
Proof.
  intros Hinv run_id task response after.
  subst response after. unfold Main.run_campaign_async_endpoint. simpl.
  split_and!; try reflexivity.
  - destruct (Main.RUN_TASKS w !! run_id) as [t|] eqn:E; [|done].
    destruct (Hinv run_id) as (i & Hi & Heq); [by eexists|].
    apply uuid4_never_repeats in Heq. lia.
  - by rewrite <- app_assoc.
  - intros id [t Ht]. simpl in *.
    destruct (decide (id = run_id)) as [-> | Hne].
    + exists (Main.uuid_draws w). split; [lia | done].
    + rewrite lookup_insert_ne in Ht by done.
      destruct (Hinv id) as (i & Hi & Heq); [by eexists|].
      exists i. split; [lia | done].
Qed.

End StartProperties.

Lemma uuids_never_repeat (i j : nat) : Examples.uuids i = Examples.uuids j -> i = j.
Proof. apply (inj pretty). Qed.

(** The first request to a fresh process. *)
Lemma start_run_returns_immediately_witness :
  (Main.run_campaign_async_endpoint Examples.uuids ∅ Examples.world0).1
    = {| Main.success := true; Main.run_id_of := "0" |}
  /\ Main.trace (Main.run_campaign_async_endpoint Examples.uuids ∅ Examples.world0).2
    = [Main.CreateTask (Main.mkTask ∅ "0"); Main.Register "0"].
Proof.
  destruct (start_run_returns_immediately Examples.uuids uuids_never_repeat
              ∅ Examples.world0) as (Hresp & _ & _ & _ & Htrace & _).
  - intros id [t Ht]. simpl in Ht. rewrite lookup_empty in Ht. discriminate Ht.
  - split; [exact Hresp | exact Htrace].
Defined.

(* --------------------------------------------------------------------- *)
(** *** The broadcast hub                                                 *)
(* --------------------------------------------------------------------- *)

Lemma deliver_all_other (cap : nat) (m : Hub.Message) (hds : list nat)
    (ss : gmap nat Hub.Subscription) (hd : nat) :
  hd ∉ hds -> Hub.deliver_all cap m hds ss !! hd = ss !! hd.
Proof.
  induction hds as [|x hds IH]; simpl; [done|].
  intros [Hne Hnot]%not_elem_of_cons.
  unfold Hub.deliver at 1. rewrite lookup_alter_ne by done. by apply IH.
Qed.

Lemma channel_members (h : Hub.t) (run_id : string) (hd : nat) :
  (forall id l, Hub.channels h !! id = Some l -> hd ∉ l) ->
  hd ∉ default [] (Hub.channels h !! run_id).
Proof.
  intros Hno. destruct (Hub.channels h !! run_id) as [l|] eqn:E; simpl.
  - by apply (Hno run_id).
  - apply not_elem_of_nil.
Qed.

Lemma step_capacity (h : Hub.t) (o : Hub.op) :
  Hub.capacity (Hub.step h o) = Hub.capacity h.
Proof.
  destruct o as [id ev | id | id x | id | x]; simpl;
    unfold Hub.send, Hub.connect, Hub.closeRun, Hub.receive;
    repeat case_bool_decide; simpl; try reflexivity.
  destruct (Hub.subs h !! x) as [s|]; [|reflexivity].
  destruct (Hub.pending s); reflexivity.
Qed.

Lemma step_closed (h : Hub.t) (o : Hub.op) (run_id : string) :
  run_id ∈ Hub.closed h -> run_id ∈ Hub.closed (Hub.step h o).
Proof.
  intros Hc. destruct o as [id ev | id | id x | id | x]; simpl;
    unfold Hub.send, Hub.connect, Hub.closeRun, Hub.receive;
    repeat case_bool_decide; simpl; try done.
  - set_solver.
  - destruct (Hub.subs h !! x) as [s|]; [|done].
    destruct (Hub.pending s); done.
Qed.

Lemma step_well_numbered (h : Hub.t) (o : Hub.op) :
  Hub.well_numbered h -> Hub.well_numbered (Hub.step h o).
Proof.
  unfold Hub.well_numbered. intros Hwf.
  destruct o as [id ev | id | id x | id | x]; simpl;
    unfold Hub.send, Hub.connect, Hub.closeRun, Hub.receive;
    repeat case_bool_decide; simpl; try done.
  - intros id' l x Hl Hx. specialize (Hwf id' l x Hl Hx). lia.
  - intros id' l x Hl Hx.
    destruct (decide (id = id')) as [<- | Hne].
    + rewrite lookup_insert_eq in Hl. injection Hl as <-.
      apply elem_of_app in Hx as [Hx | Hx].
      * destruct (Hub.channels h !! id) as [l'|] eqn:E; simpl in Hx.
        -- specialize (Hwf id l' x E Hx). lia.
        -- by apply not_elem_of_nil in Hx.
      * apply list_elem_of_singleton in Hx as ->. lia.
    + rewrite lookup_insert_ne in Hl by done.
      specialize (Hwf id' l x Hl Hx). lia.
  - intros id' l y Hl Hy.
    destruct (decide (id = id')) as [<- | Hne].
    + rewrite lookup_alter_eq in Hl.
      destruct (Hub.channels h !! id) as [l'|] eqn:E; simpl in Hl; [|done].
      injection Hl as <-. apply list_elem_of_filter in Hy as [_ Hy].
      by apply (Hwf id l').
    + rewrite lookup_alter_ne in Hl by done. by apply (Hwf id' l).
  - intros id' l y Hl Hy.
    destruct (decide (id = id')) as [<- | Hne].
    + by rewrite lookup_delete_eq in Hl.
    + rewrite lookup_delete_ne in Hl by done. by apply (Hwf id' l).
  - destruct (Hub.subs h !! x) as [s|]; [|done].
    destruct (Hub.pending s); done.
Qed.

Lemma run_invariant (P : Hub.t -> Prop) (ops : list Hub.op) (h : Hub.t) :
  (forall h o, P h -> P (Hub.step h o)) -> P h -> P (Hub.run ops h).
Proof.
  intros Hstep. revert h. unfold Hub.run.
  induction ops as [|o ops IH]; intros h Hh; simpl; [done|].
  apply IH, Hstep, Hh.
Qed.

Lemma run_app (ops1 ops2 : list Hub.op) (h : Hub.t) :
  Hub.run (ops1 ++ ops2) h = Hub.run ops2 (Hub.run ops1 h).
Proof. unfold Hub.run. apply foldl_app. Qed.

Lemma run_capacity (ops : list Hub.op) (h : Hub.t) :
  Hub.capacity (Hub.run ops h) = Hub.capacity h.
Proof.
  apply (run_invariant (fun h' => Hub.capacity h' = Hub.capacity h)); [|done].
  intros h' o <-. apply step_capacity.
Qed.

Lemma step_detached (hd : nat) (ms : list Hub.Message) (h : Hub.t) (o : Hub.op) :
  Hub.detached_with hd ms h -> Hub.detached_with hd ms (Hub.step h o).
Proof.
  intros (Hlt & Hno & Hms & Hsome). unfold Hub.detached_with, Hub.handed in *.
  destruct o as [id ev | id | id x | id | x]; simpl;
    unfold Hub.send, Hub.connect, Hub.closeRun, Hub.receive;
    repeat case_bool_decide; simpl; try done.
  - rewrite deliver_all_other by by apply channel_members. done.
  - rewrite lookup_insert_ne by lia. split_and!; [lia | done..].
  - rewrite lookup_insert_ne by lia. split_and!; [lia | | done..].
    intros id' l Hl Hin.
    destruct (decide (id = id')) as [<- | Hne].
    + rewrite lookup_insert_eq in Hl. injection Hl as <-.
      apply elem_of_app in Hin as [Hin | Hin].
      * by apply (channel_members h id hd Hno).
      * apply list_elem_of_singleton in Hin. lia.
    + rewrite lookup_insert_ne in Hl by done. by apply (Hno id' l).
  - split_and!; try done.
    intros id' l Hl Hin.
    destruct (decide (id = id')) as [<- | Hne].
    + rewrite lookup_alter_eq in Hl.
      destruct (Hub.channels h !! id) as [l'|] eqn:E; simpl in Hl; [|done].
      injection Hl as <-. apply list_elem_of_filter in Hin as [_ Hin].
      by apply (Hno id l').
    + rewrite lookup_alter_ne in Hl by done. by apply (Hno id' l).
  - rewrite deliver_all_other by by apply channel_members.
    split_and!; try done.
    intros id' l Hl Hin.
    destruct (decide (id = id')) as [<- | Hne].
    + by rewrite lookup_delete_eq in Hl.
    + rewrite lookup_delete_ne in Hl by done. by apply (Hno id' l).
  - destruct (Hub.subs h !! x) as [s|] eqn:Es; [|done].
    destruct (Hub.pending s) as [|m rest] eqn:Ep; [done|]. simpl.
    destruct (decide (x = hd)) as [-> | Hne].
    + rewrite lookup_insert_eq. rewrite Es, Ep in Hms. simpl.
      split_and!; [done | done | | by eexists].
      by rewrite <- Hms, <- app_assoc.
    + rewrite lookup_insert_ne by done. done.
Qed.

Lemma connect_handle (run_id : string) (h : Hub.t) :
  (Hub.connect run_id h).1 = Hub.next_handle h.
Proof. unfold Hub.connect. by case_bool_decide. Qed.

(** Attaching to a closed run: the new handle is registered nowhere and
    holds the terminal marker. *)
Lemma connect_closed_detached (run_id : string) (h : Hub.t) :
  Hub.well_numbered h ->
  run_id ∈ Hub.closed h ->
  (0 < Hub.capacity h)%nat ->
  Hub.detached_with (Hub.next_handle h) [Hub.TerminalMarker] (Hub.connect run_id h).2.
Proof.
  intros Hwf Hclosed Hcap. unfold Hub.connect.
  rewrite bool_decide_eq_true_2 by done. simpl.
  unfold Hub.detached_with, Hub.handed. simpl.
  rewrite lookup_insert_eq. simpl. split_and!.
  - lia.
  - intros id l Hl Hin. specialize (Hwf id l _ Hl Hin). lia.
  - unfold Hub.push. simpl. destruct (Hub.capacity h); [lia | reflexivity].
  - by eexists.
Qed.

Lemma closeRun_closed (run_id : string) (h : Hub.t) :
  run_id ∈ Hub.closed (Hub.closeRun run_id h).
Proof. unfold Hub.closeRun. case_bool_decide; simpl; set_solver. Qed.

Lemma empty_well_numbered (cap : nat) : Hub.well_numbered (Hub.empty cap).
Proof. intros id l x Hl. simpl in Hl. by rewrite lookup_empty in Hl. Qed.

(** The hub side of [websocket_logs]: a connect, then possibly the
    disconnect of the same handle. *)
Lemma websocket_logs_hub (run_id : string) (frames : list Main.ClientFrame)
    (w : Main.World) :
  (Main.websocket_logs run_id frames w).1.1 = (Hub.connect run_id (Main.ws_manager w)).1
  /\ exists ops,
       Main.ws_manager (Main.websocket_logs run_id frames w).2
       = Hub.run ops (Hub.connect run_id (Main.ws_manager w)).2.
Proof.
  unfold Main.websocket_logs.
  destruct (Hub.connect run_id (Main.ws_manager w)) as [hd hub].
  destruct (Main.keep_alive frames) as [[] [[]|e]]; simpl; split; try done.
  - by exists [].
  - by exists [].
  - by exists [Hub.OpDisconnect run_id hd].
  - by exists [].
Qed.

(** C7: in a hub of positive buffer capacity, after [closeRun] for a run
    id and whatever hub activity follows, a subscriber that attaches to
    that id finds the terminal marker in its buffer at once (its first
    receive returns it without suspending), and whatever happens
    afterwards everything it is ever handed is that one marker.  The
    same holds for a subscriber attached through [websocket_logs]. *)
Theorem late_subscriber_gets_terminal_marker (cap : nat) (run_id : string)
    (before between afterwards : list Hub.op) :
  (0 < cap)%nat ->
  let closed_hub :=
    Hub.run between (Hub.closeRun run_id (Hub.run before (Hub.empty cap))) in
  let hd := (Hub.connect run_id closed_hub).1 in
  let attached := (Hub.connect run_id closed_hub).2 in
  (Hub.receive hd attached).1 = Some Hub.TerminalMarker
  /\ Hub.handed hd (Hub.run afterwards attached) = [Hub.TerminalMarker]
  /\ (forall (w : Main.World) (frames : list Main.ClientFrame),
        Main.ws_manager w = closed_hub ->
        let connection := Main.websocket_logs run_id frames w in
        Hub.handed connection.1.1 (Hub.run afterwards (Main.ws_manager connection.2))
        = [Hub.TerminalMarker]).
Proof.
  intros Hcap closed_hub hd attached.
  assert (Hub.well_numbered closed_hub) as Hwf.
  { apply (run_invariant Hub.well_numbered); [apply step_well_numbered|].
    unfold Hub.closeRun. unfold Hub.run.
    change (Hub.well_numbered
              (Hub.step (foldl Hub.step (Hub.empty cap) before) (Hub.OpCloseRun run_id))).
    apply step_well_numbered.
    apply (run_invariant Hub.well_numbered); [apply step_well_numbered|].
    apply empty_well_numbered. }
  assert (run_id ∈ Hub.closed closed_hub) as Hclosed.
  { apply (run_invariant (fun h => run_id ∈ Hub.closed h)).
    - intros h o. apply step_closed.
    - apply closeRun_closed. }
  assert (0 < Hub.capacity closed_hub)%nat as Hcap'.
  { unfold closed_hub. rewrite run_capacity.
    change (Hub.closeRun run_id (Hub.run before (Hub.empty cap)))
      with (Hub.step (Hub.run before (Hub.empty cap)) (Hub.OpCloseRun run_id)).
    rewrite step_capacity, run_capacity. exact Hcap. }
  pose proof (connect_closed_detached run_id closed_hub Hwf Hclosed Hcap') as Hdet.
  fold attached in Hdet. rewrite <- (connect_handle run_id closed_hub) in Hdet.
  fold hd in Hdet.
  split_and!.
  - destruct Hdet as (_ & _ & Hms & _).
    subst attached hd. unfold Hub.handed, Hub.receive, Hub.connect in *.
    rewrite bool_decide_eq_true_2 in * by done. simpl in *.
    rewrite lookup_insert_eq in *. simpl in *.
    destruct (Hub.push (Hub.capacity closed_hub) Hub.TerminalMarker []) as [|m rest];
      [done|]. simpl. by injection Hms as -> ->.
  - apply (run_invariant (Hub.detached_with hd [Hub.TerminalMarker]))
      with (ops := afterwards) in Hdet; [|intros h o; apply step_detached].
    by destruct Hdet as (_ & _ & Hms & _).
  - intros w frames Hw connection. subst connection.
    destruct (websocket_logs_hub run_id frames w) as (-> & ops & ->).
    rewrite Hw. fold hd attached. rewrite <- run_app.
    apply (run_invariant (Hub.detached_with hd [Hub.TerminalMarker]))
      with (ops := ops ++ afterwards) in Hdet; [|intros h o; apply step_detached].
    by destruct Hdet as (_ & _ & Hms & _).
Qed.

(** A run "r" with one early subscriber is closed; a late subscriber
    then attaches while another run keeps publishing. *)
Lemma late_subscriber_gets_terminal_marker_witness :
  let closed_hub :=
    Hub.run [] (Hub.closeRun "r" (Hub.run [Hub.OpConnect "r"] (Hub.empty 8))) in
  Hub.handed (Hub.connect "r" closed_hub).1
    (Hub.run [Hub.OpSend "r" (mkEvent 5 INFO "late"); Hub.OpConnect "s";
              Hub.OpSend "s" (mkEvent 6 INFO "other")]
       (Hub.connect "r" closed_hub).2)
  = [Hub.TerminalMarker].
Proof.
  destruct (late_subscriber_gets_terminal_marker 8 "r" [Hub.OpConnect "r"] []
              [Hub.OpSend "r" (mkEvent 5 INFO "late"); Hub.OpConnect "s";
               Hub.OpSend "s" (mkEvent 6 INFO "other")]) as (_ & Hhanded & _).
  - lia.
  - exact Hhanded.
Defined.

(* ===================================================================== *)
(** ** Further properties of the code                                     *)
(* ===================================================================== *)

(* --------------------------------------------------------------------- *)
(** *** Sitemap discovery: every way it can end                           *)
(* --------------------------------------------------------------------- *)

Lemma tuple_ge_antisym (a b : Z * string) :
  Discover.tuple_ge a b -> Discover.tuple_ge b a -> a = b.
Proof.
  destruct a as [n1 s1], b as [n2 s2]. unfold Discover.tuple_ge. simpl.
  intros [H1 | [-> H1]] [H2 | [H2 H2']]; try lia.
  f_equal. by apply (anti_symm String.le).
Qed.

Lemma head_sort_reverse_Some (candidates : list (Z * string)) (c0 : Z * string) :
  head (Discover.sort_reverse candidates) = Some c0 ->
  c0 ∈ candidates /\ forall c, c ∈ candidates -> Discover.tuple_ge c0 c.
Proof.
  destruct (Discover.sort_reverse candidates) as [|c rest] eqn:E; [done|].
  intros [= ->]. by eapply sort_reverse_head.
Qed.

(** The loop collects nothing exactly when no entry matches. *)
Lemma collect_candidates_nil (tags : list string) :
  Discover.collect_candidates tags = Py.Returned []
  <-> Forall (fun tag => Sitemap.POST_PATTERN_search (Str.strip tag) = None) tags.
Proof.
  split.
  - intros Hc. apply Forall_forall. intros tag Htag.
    pose proof Hc as [_ Hall]%collect_candidates_Returned.
    destruct (proj1 (Forall_forall _ _) Hall tag Htag) as [[c|] Hcand].
    + exfalso. assert (c ∈ ([] : list (Z * string))) as Hin.
      { apply (elem_of_collected _ _ _ Hc). by exists tag. }
      by apply not_elem_of_nil in Hin.
    + by apply candidate_of_None.
  - intros Hall. induction tags as [|tag rest IH]; [reflexivity|].
    apply Forall_cons in Hall as [Htag Hrest].
    rewrite collect_candidates_cons.
    rewrite (proj2 (candidate_of_None tag) Htag). simpl.
    by rewrite (IH Hrest).
Qed.

Section DiscoverOutcomes.

Variable http_get : nat -> string -> HttpOutcome.
Variable loc_texts : string -> list string.

Abbreviation fetch' := (Discover.fetch http_get).
Abbreviation discover := (Discover.discover_latest_from_sitemap http_get loc_texts).

(** The whole of [discover_latest_from_sitemap] as one case analysis. *)
Lemma discover_unfold (k : nat) (url : string) :
  discover k url
  = match fetch' k url with
    | Py.Raised e => Py.Raised e
    | Py.Returned None => Py.Returned None
    | Py.Returned (Some txt) =>
        if bool_decide (txt = EmptyString) then Py.Returned None else
        match Discover.collect_candidates (loc_texts txt) with
        | Py.Raised e => Py.Raised e
        | Py.Returned candidates =>
            match head (Discover.sort_reverse candidates) with
            | None => Py.Returned None
            | Some c0 =>
                match fetch' (S k) c0.2 with
                | Py.Raised e => Py.Raised e
                | Py.Returned None =>
                    Py.Raised (Py.Exn Py.TypeError "object of type 'NoneType' has no len()")
                | Py.Returned (Some xml) =>
                    match last (loc_texts xml) with
                    | None => Py.Returned None
                    | Some tag =>
                        Py.Returned
                          (Some {| art_url := Str.strip tag;
                                   art_source := c0.2;
                                   art_title := Discover.title_of (Str.strip tag) |})
                    end
                end
            end
        end
    end.
Proof.
  unfold Discover.discover_latest_from_sitemap.
  destruct (fetch' k url) as [[txt|]|e]; simpl; try reflexivity.
  case_bool_decide as Htxt; [reflexivity|]. simpl.
  destruct (Discover.collect_candidates (loc_texts txt)) as [candidates|e]; simpl;
    [|reflexivity].
  case_bool_decide as Hc.
  - rewrite Hc. reflexivity.
  - destruct (sort_reverse_nonempty _ Hc) as (c0 & rest & Hs). rewrite Hs. simpl.
    destruct (fetch' (S k) c0.2) as [[xml|]|e]; simpl; try reflexivity.
    case_bool_decide as Hu.
    + rewrite Hu. reflexivity.
    + unfold Py.getitem_last. destruct (last (loc_texts xml)) eqn:El; [reflexivity|].
      by apply last_None in El.
Qed.

(** Whatever [discover_latest_from_sitemap] returns as an article comes
    from the two documents it fetched: its source is the stripped text of
    a [<loc>] of the index that matches the pattern, its URL the stripped
    text of the last [<loc>] of the document fetched from that source,
    and its title is derived from that URL. *)
Theorem discover_result_is_sound (k : nat) (url : string) (a : Article) :
  discover k url = Py.Returned (Some a) ->
  exists txt tag g3 xml tag',
    fetch' k url = Py.Returned (Some txt)
    /\ tag ∈ loc_texts txt
    /\ art_source a = Str.strip tag
    /\ Sitemap.POST_PATTERN_search (art_source a) = Some g3
    /\ fetch' (S k) (art_source a) = Py.Returned (Some xml)
    /\ last (loc_texts xml) = Some tag'
    /\ art_url a = Str.strip tag'
    /\ art_title a = Discover.title_of (art_url a).
Proof.
  rewrite discover_unfold.
  destruct (fetch' k url) as [[txt|]|e] eqn:Hf; try discriminate.
  case_bool_decide; [discriminate|].
  destruct (Discover.collect_candidates (loc_texts txt)) as [candidates|e] eqn:Hcs;
    [|discriminate].
  destruct (head (Discover.sort_reverse candidates)) as [c0|] eqn:Hs; [|discriminate].
  apply head_sort_reverse_Some in Hs as [Hin _].
  apply (elem_of_collected _ _ _ Hcs) in Hin as (tag & Htag & Hc).
  destruct c0 as [num loc]. apply candidate_of_Some in Hc as (-> & g3 & Hg3 & _).
  simpl. destruct (fetch' (S k) (Str.strip tag)) as [[xml|]|e] eqn:Hx; try discriminate.
  destruct (last (loc_texts xml)) as [tag'|] eqn:El; [|discriminate].
  intros [= <-]. simpl. by exists txt, tag, g3, xml, tag'.
Qed.

(** [discover_latest_from_sitemap] answers not-found in exactly three
    situations: the index fetch gave no usable body (a status other than
    200, or an empty body); no [<loc>] of the index matches the pattern;
    or the loop over the entries completed (no matching entry made [int]
    raise), and the sitemap selected from its candidates was fetched and
    holds no [<loc>]. *)
Theorem discover_not_found_iff (k : nat) (url : string) :
  discover k url = Py.Returned None <->
  (exists body, fetch' k url = Py.Returned body /\ Py.falsy body = true)
  \/ (exists txt,
        fetch' k url = Py.Returned (Some txt) /\ txt ≠ EmptyString
        /\ Forall (fun tag => Sitemap.POST_PATTERN_search (Str.strip tag) = None)
             (loc_texts txt))
  \/ (exists txt candidates c0 xml,
        fetch' k url = Py.Returned (Some txt) /\ txt ≠ EmptyString
        /\ Discover.collect_candidates (loc_texts txt) = Py.Returned candidates
        /\ head (Discover.sort_reverse candidates) = Some c0
        /\ fetch' (S k) c0.2 = Py.Returned (Some xml)
        /\ loc_texts xml = []).
Proof.
  rewrite discover_unfold. split.
  - destruct (fetch' k url) as [[txt|]|e] eqn:Hf; try discriminate.
    2: { intros _. left. by exists None. }
    case_bool_decide as Htxt.
    { intros _. left. exists (Some txt). split; [done|]. simpl.
      by apply bool_decide_eq_true. }
    destruct (Discover.collect_candidates (loc_texts txt)) as [candidates|e] eqn:Hcs;
      [|discriminate].
    destruct (head (Discover.sort_reverse candidates)) as [c0|] eqn:Hs.
    + destruct (fetch' (S k) c0.2) as [[xml|]|e] eqn:Hx; try discriminate.
      destruct (last (loc_texts xml)) eqn:El; [discriminate|].
      intros _. right. right. exists txt, candidates, c0, xml.
      split_and!; try done. by apply last_None.
    + intros _. right. left. exists txt. split_and!; try done.
      apply collect_candidates_nil. rewrite Hcs. f_equal.
      destruct candidates as [|c cs]; [done|].
      destruct (sort_reverse_nonempty (c :: cs)) as (c0 & rest & E); [done|].
      by rewrite E in Hs.
  - intros [(body & -> & Hb)
           | [(txt & -> & Htxt & Hc)
             | (txt & candidates & c0 & xml & -> & Htxt & Hcs & Hs & Hx & Hu)]].
    + destruct body as [txt|]; [|done]. simpl in Hb. by rewrite Hb.
    + rewrite bool_decide_eq_false_2 by done.
      by rewrite (proj2 (collect_candidates_nil _) Hc).
    + rewrite bool_decide_eq_false_2 by done. rewrite Hcs, Hs, Hx, Hu. done.
Qed.

(** The only exceptions [discover_latest_from_sitemap] lets out are the
    exception of one of its two requests, the [ValueError] of [int] on a
    matching entry of the index with more than 4300 digits, and the
    [TypeError] of parsing the missing body of the second request. *)
Theorem discover_raises_only (k : nat) (url : string) (e : Py.exn) :
  discover k url = Py.Raised e ->
  fetch' k url = Py.Raised e
  \/ (exists txt tag g3,
        fetch' k url = Py.Returned (Some txt)
        /\ tag ∈ loc_texts txt
        /\ Sitemap.POST_PATTERN_search (Str.strip tag) = Some g3
        /\ (4300 < String.length g3)%nat
        /\ Py.exn_class e = Py.ValueError)
  \/ (exists txt candidates c0,
        fetch' k url = Py.Returned (Some txt)
        /\ Discover.collect_candidates (loc_texts txt) = Py.Returned candidates
        /\ head (Discover.sort_reverse candidates) = Some c0
        /\ (fetch' (S k) c0.2 = Py.Raised e
            \/ (fetch' (S k) c0.2 = Py.Returned None
                /\ Py.exn_class e = Py.TypeError))).
Proof.
  rewrite discover_unfold.
  destruct (fetch' k url) as [[txt|]|e'] eqn:Hf; try discriminate.
  2: { intros [= ->]. by left. }
  case_bool_decide; [discriminate|].
  destruct (Discover.collect_candidates (loc_texts txt)) as [candidates|e'] eqn:Hcs.
  - destruct (head (Discover.sort_reverse candidates)) as [c0|] eqn:Hs; [|discriminate].
    intros Hr. right. right. exists txt, candidates, c0. split_and!; try done.
    destruct (fetch' (S k) c0.2) as [[xml|]|e'] eqn:Hx.
    + destruct (last (loc_texts xml)); discriminate.
    + right. split; [done|]. by injection Hr as <-.
    + left. by injection Hr as ->.
  - intros [= ->]. right. left.
    apply collect_candidates_Raised in Hcs as (tag & Htag & Hc).
    apply candidate_of_Raised in Hc as (g3 & Hg3 & Hlong & Hclass).
    by exists txt, tag, g3.
Qed.

End DiscoverOutcomes.

Lemma discover_result_is_sound_witness :
  exists txt tag g3 xml tag',
    Discover.fetch Examples.web 0 "https://example.com/sitemap_index.xml" = Py.Returned (Some txt)
    /\ tag ∈ Examples.loc_texts txt
    /\ "https://example.com/post-sitemap2.xml"%string = Str.strip tag
    /\ Sitemap.POST_PATTERN_search "https://example.com/post-sitemap2.xml" = Some g3
    /\ Discover.fetch Examples.web 1 "https://example.com/post-sitemap2.xml"
       = Py.Returned (Some xml)
    /\ last (Examples.loc_texts xml) = Some tag'
    /\ "https://example.com/blog/my-first-post"%string = Str.strip tag'
    /\ "My First Post"%string = Discover.title_of "https://example.com/blog/my-first-post".
Proof.
  apply (discover_result_is_sound Examples.web Examples.loc_texts 0
           "https://example.com/sitemap_index.xml"
           {| art_url := "https://example.com/blog/my-first-post";
              art_source := "https://example.com/post-sitemap2.xml";
              art_title := "My First Post" |}).
  vm_compute. reflexivity.
Defined.

(** On the site whose post sitemaps are gone the exception is the
    [TypeError] of the parser. *)
Lemma discover_raises_only_witness :
  Discover.fetch Examples.web_missing 0 "https://example.com/sitemap_index.xml"
    = Py.Raised (Py.Exn Py.TypeError "object of type 'NoneType' has no len()")
  \/ (exists txt tag g3,
        Discover.fetch Examples.web_missing 0 "https://example.com/sitemap_index.xml"
          = Py.Returned (Some txt)
        /\ tag ∈ Examples.loc_texts txt
        /\ Sitemap.POST_PATTERN_search (Str.strip tag) = Some g3
        /\ (4300 < String.length g3)%nat
        /\ Py.TypeError = Py.ValueError)
  \/ (exists txt candidates c0,
        Discover.fetch Examples.web_missing 0 "https://example.com/sitemap_index.xml"
          = Py.Returned (Some txt)
        /\ Discover.collect_candidates (Examples.loc_texts txt) = Py.Returned candidates
        /\ head (Discover.sort_reverse candidates) = Some c0
        /\ (Discover.fetch Examples.web_missing 1 c0.2
              = Py.Raised (Py.Exn Py.TypeError "object of type 'NoneType' has no len()")
            \/ (Discover.fetch Examples.web_missing 1 c0.2 = Py.Returned None
                /\ Py.TypeError = Py.TypeError))).
Proof.
  apply (discover_raises_only Examples.web_missing Examples.loc_texts 0
           "https://example.com/sitemap_index.xml"
           (Py.Exn Py.TypeError "object of type 'NoneType' has no len()")).
  vm_compute. reflexivity.
Defined.

(** The sitemap that is selected does not depend on the order in which
    the index lists its entries, and neither does whether the loop over
    the entries completes: when it does for one order it does for the
    other, with the same selection; when it does not, both orders end
    in the [ValueError] of [int]. *)
Theorem selection_ignores_order (tags1 tags2 : list string) :
  tags1 ≡ₚ tags2 ->
  match Discover.collect_candidates tags1, Discover.collect_candidates tags2 with
  | Py.Returned candidates1, Py.Returned candidates2 =>
      head (Discover.sort_reverse candidates1) = head (Discover.sort_reverse candidates2)
  | Py.Raised e1, Py.Raised e2 =>
      Py.exn_class e1 = Py.ValueError /\ Py.exn_class e2 = Py.ValueError
  | _, _ => False
  end.
Proof.
  intros Hp.
  assert (forall ts1 ts2 cs e, ts1 ≡ₚ ts2 ->
            Discover.collect_candidates ts1 = Py.Returned cs ->
            Discover.collect_candidates ts2 = Py.Raised e -> False) as Hmixed.
  { intros ts1 ts2 cs e Hperm [_ Hall]%collect_candidates_Returned
      (tag & Htag & Hc)%collect_candidates_Raised.
    rewrite <- Hperm in Htag.
    destruct (proj1 (Forall_forall _ _) Hall tag Htag) as [c Hc'].
    rewrite Hc in Hc'. discriminate Hc'. }
  destruct (Discover.collect_candidates tags1) as [cs1|e1] eqn:E1;
    destruct (Discover.collect_candidates tags2) as [cs2|e2] eqn:E2.
  2: by eapply (Hmixed tags1 tags2).
  2: by eapply (Hmixed tags2 tags1).
  2: { apply collect_candidates_Raised in E1 as (t1 & _ & (? & _ & _ & H1)%candidate_of_Raised).
       apply collect_candidates_Raised in E2 as (t2 & _ & (? & _ & _ & H2)%candidate_of_Raised).
       done. }
  assert (cs1 ≡ₚ cs2) as Hc.
  { apply collect_candidates_Returned in E1 as [-> _].
    apply collect_candidates_Returned in E2 as [-> _]. by rewrite Hp. }
  destruct (Discover.sort_reverse cs1) as [|c1 r1] eqn:S1;
    destruct (Discover.sort_reverse cs2) as [|c2 r2] eqn:S2;
    simpl; try reflexivity.
  - exfalso.
    pose proof (merge_sort_Permutation Discover.tuple_ge cs1) as P1.
    pose proof (merge_sort_Permutation Discover.tuple_ge cs2) as P2.
    unfold Discover.sort_reverse in S1, S2. rewrite S1 in P1. rewrite S2 in P2.
    rewrite <- P1 in Hc. rewrite <- P2 in Hc. by apply Permutation_nil_cons in Hc.
  - exfalso.
    pose proof (merge_sort_Permutation Discover.tuple_ge cs1) as P1.
    pose proof (merge_sort_Permutation Discover.tuple_ge cs2) as P2.
    unfold Discover.sort_reverse in S1, S2. rewrite S1 in P1. rewrite S2 in P2.
    rewrite <- P1 in Hc. rewrite <- P2 in Hc. symmetry in Hc.
    by apply Permutation_nil_cons in Hc.
  - destruct (sort_reverse_head _ _ _ S1) as [Hin1 Hmax1].
    destruct (sort_reverse_head _ _ _ S2) as [Hin2 Hmax2].
    f_equal. apply tuple_ge_antisym.
    + apply Hmax1. by rewrite Hc.
    + apply Hmax2. by rewrite <- Hc.
Qed.

Lemma selection_ignores_order_witness :
  match
    Discover.collect_candidates
      ["https://example.com/post-sitemap.xml"; "https://example.com/post-sitemap2.xml"]%string,
    Discover.collect_candidates
      ["https://example.com/post-sitemap2.xml"; "https://example.com/post-sitemap.xml"]%string
  with
  | Py.Returned candidates1, Py.Returned candidates2 =>
      head (Discover.sort_reverse candidates1) = head (Discover.sort_reverse candidates2)
  | Py.Raised e1, Py.Raised e2 =>
      Py.exn_class e1 = Py.ValueError /\ Py.exn_class e2 = Py.ValueError
  | _, _ => False
  end.
Proof.
  apply selection_ignores_order. apply perm_swap.
Defined.
(* --------------------------------------------------------------------- *)
(** *** The derived title                                                 *)
(* --------------------------------------------------------------------- *)

Lemma upper_fixes_nonalpha (c : ascii) :
  Str.isalpha (Str.upper c) = false -> Str.upper c = c.
Proof.
  destruct c as [[] [] [] [] [] [] [] []]; vm_compute; intros H;
    first [reflexivity | discriminate H].
Qed.

Lemma lower_fixes_nonalpha (c : ascii) :
  Str.isalpha (Str.lower c) = false -> Str.lower c = c.
Proof.
  destruct c as [[] [] [] [] [] [] [] []]; vm_compute; intros H;
    first [reflexivity | discriminate H].
Qed.

Lemma title_go_chars (x : ascii) (p : bool) (s : string) :
  In x (Str.chars (Str.title_go p s)) ->
  exists c, In c (Str.chars s) /\ (x = Str.upper c \/ x = Str.lower c).
Proof.
  revert p. induction s as [|c s IH]; intros p; simpl; [tauto|].
  intros [Hx | Hx].
  - exists c. split; [by left|]. destruct p; [by right | by left].
  - destruct (IH _ Hx) as (c' & Hc' & Hcase). exists c'. split; [by right | done].
Qed.

Lemma title_keeps_nonalpha_out (x : ascii) (s : string) :
  Str.isalpha x = false ->
  ~ In x (Str.chars s) -> ~ In x (Str.chars (Str.title s)).
Proof.
  intros Hx Hno Hin. apply title_go_chars in Hin as (c & Hc & [-> | ->]).
  - apply upper_fixes_nonalpha in Hx. by rewrite Hx in Hno.
  - apply lower_fixes_nonalpha in Hx. by rewrite Hx in Hno.
Qed.

Lemma replace_chars (a b x : ascii) (s : string) :
  In x (Str.chars (Str.replace a b s)) -> x = b \/ (x <> a /\ In x (Str.chars s)).
Proof.
  induction s as [|c s IH]; simpl; [tauto|].
  intros [Hx | Hx].
  - destruct (Ascii.eqb c a) eqn:E; [by left|].
    apply Ascii.eqb_neq in E. right. split; [congruence | by left].
  - destruct (IH Hx) as [-> | [Hne Hin]]; [by left|]. right. split; [done | by right].
Qed.

(** The title never holds a hyphen or a slash: hyphens have become
    spaces, and the segment after the last slash holds none. *)
Theorem title_has_no_separator (latest_post_url : string) :
  ~ In "-"%char (Str.chars (Discover.title_of latest_post_url))
  /\ ~ In "/"%char (Str.chars (Discover.title_of latest_post_url)).
Proof.
  unfold Discover.title_of.
  destruct (final_segment_spec latest_post_url) as [Hno _].
  set (seg := List.last _ _) in *.
  split; apply title_keeps_nonalpha_out; try reflexivity.
  - intros [H | [H _]]%replace_chars; [discriminate H | done].
  - intros [H | [_ H]]%replace_chars; [discriminate H | done].
Qed.

Lemma split_go_trailing_sep (sep : ascii) (cur s : string) :
  List.last (Str.split_go sep cur (String.append s (String sep EmptyString))) EmptyString
  = EmptyString.
Proof.
  revert cur. induction s as [|c s IH]; intros cur.
  - rewrite append_nil. simpl. by rewrite Ascii.eqb_refl.
  - rewrite append_cons. simpl. destruct (Ascii.eqb c sep).
    + rewrite last_cons_nonempty by apply split_go_nonempty. apply IH.
    + apply IH.
Qed.

(** A URL that ends in a slash gets the empty title: the segment after
    the last slash is empty. *)
Theorem title_of_trailing_slash (before : string) :
  Discover.title_of (String.append before "/") = EmptyString.
Proof.
  unfold Discover.title_of, Str.split.
  by rewrite (split_go_trailing_sep "/" EmptyString before).
Qed.

(* --------------------------------------------------------------------- *)
(** *** The discovery chain: errors and the shape of the answer           *)
(* --------------------------------------------------------------------- *)

Section SourceOutcomes.

Variable http_get : nat -> string -> HttpOutcome.
Variable loc_texts : string -> list string.
Variable discover_from_rss : string -> Py.result (option Article).
Variable discover_from_html : string -> Py.result (option Article).

Abbreviation test_source' :=
  (Source.test_source http_get loc_texts discover_from_rss discover_from_html).
Abbreviation from_sitemap' := (Discover.discover_latest_from_sitemap http_get loc_texts).

(** A payload without the key [url] makes [test_source] raise
    [KeyError] before any strategy is invoked. *)
Theorem test_source_missing_url (k : nat) (payload : gmap string string) :
  payload !! "url"%string = None ->
  test_source' k payload = ([], Py.Raised (Py.Exn Py.KeyError "'url'")).
Proof. intros H. unfold Source.test_source, Py.dict_getitem. by rewrite H. Qed.

(** An exception in a strategy ends the chain: it reaches the caller of
    [test_source], and the strategies after the failing one are never
    invoked. *)
Theorem test_source_exception_ends_chain (k : nat) (payload : gmap string string)
    (url : string) (e : Py.exn) :
  payload !! "url"%string = Some url ->
  (from_sitemap' k url = Py.Raised e ->
   test_source' k payload = ([Source.Sitemap_strategy], Py.Raised e))
  /\ (from_sitemap' k url = Py.Returned None ->
      discover_from_rss url = Py.Raised e ->
      test_source' k payload
      = ([Source.Sitemap_strategy; Source.Rss_strategy], Py.Raised e))
  /\ (from_sitemap' k url = Py.Returned None ->
      discover_from_rss url = Py.Returned None ->
      discover_from_html url = Py.Raised e ->
      test_source' k payload
      = ([Source.Sitemap_strategy; Source.Rss_strategy; Source.Html_strategy],
         Py.Raised e)).
Proof.
  intros Hurl. unfold Source.test_source, Py.dict_getitem. rewrite Hurl.
  split_and!.
  - by intros ->.
  - by intros -> ->.
  - by intros -> -> ->.
Qed.

(** Every dict [test_source] returns is of one of two kinds: the
    not-found object, with the key [error] and no [method]; or an
    article with the article's [url], [source] and [title], no [error],
    and under [method] the text [sitemap], [rss] or [html], naming the
    last strategy that was invoked. *)
Theorem test_source_answer_shape (k : nat) (payload answer : gmap string string) :
  (test_source' k payload).2 = Py.Returned answer ->
  (answer !! "error"%string = Some "Failed to detect article"%string
   /\ answer !! "method"%string = None)
  \/ (exists a,
        ((answer !! "method"%string = Some "sitemap"%string
          /\ (test_source' k payload).1 = [Source.Sitemap_strategy])
         \/ (answer !! "method"%string = Some "rss"%string
             /\ (test_source' k payload).1 = [Source.Sitemap_strategy; Source.Rss_strategy])
         \/ (answer !! "method"%string = Some "html"%string
             /\ (test_source' k payload).1
                = [Source.Sitemap_strategy; Source.Rss_strategy; Source.Html_strategy]))
        /\ answer !! "url"%string = Some (art_url a)
        /\ answer !! "source"%string = Some (art_source a)
        /\ answer !! "title"%string = Some (art_title a)
        /\ answer !! "error"%string = None).
Proof.
  assert (forall m a, Source.tagged m a !! "error"%string = None) as Hnoerr.
  { intros m a. unfold Source.tagged, Source.article_dict.
    rewrite lookup_union_None. split.
    - by rewrite !lookup_insert_ne.
    - by rewrite lookup_singleton_ne. }
  unfold Source.test_source.
  destruct (Py.dict_getitem payload "url") as [url|e]; [|discriminate].
  destruct (from_sitemap' k url) as [[a|]|e]; simpl.
  { intros <-%returned_inj. right. exists a.
    destruct (tagged_fields Source.Sitemap_strategy a) as (? & ? & ?).
    split_and!; try done. left. split; [apply tagged_method | reflexivity]. }
  2: discriminate.
  destruct (discover_from_rss url) as [[a|]|e]; simpl.
  { intros <-%returned_inj. right. exists a.
    destruct (tagged_fields Source.Rss_strategy a) as (? & ? & ?).
    split_and!; try done. right. left. split; [apply tagged_method | reflexivity]. }
  2: discriminate.
  destruct (discover_from_html url) as [[a|]|e]; simpl.
  { intros <-%returned_inj. right. exists a.
    destruct (tagged_fields Source.Html_strategy a) as (? & ? & ?).
    split_and!; try done. right. right. split; [apply tagged_method | reflexivity]. }
  2: discriminate.
  intros <-%returned_inj. left. split; reflexivity.
Qed.

End SourceOutcomes.

Lemma test_source_missing_url_witness :
  Source.test_source Examples.web Examples.loc_texts Examples.rss_finds
    Examples.finds_nothing 0 ∅
  = ([], Py.Raised (Py.Exn Py.KeyError "'url'")).
Proof.
  apply (test_source_missing_url Examples.web Examples.loc_texts Examples.rss_finds
           Examples.finds_nothing 0 ∅).
  reflexivity.
Defined.

(** On the site whose post sitemaps are gone, the chain stops in the
    sitemap strategy: the feed, which would find an article, is not
    asked. *)
Lemma test_source_exception_ends_chain_witness :
  Source.test_source Examples.web_missing Examples.loc_texts Examples.rss_finds
    Examples.finds_nothing 0 Examples.payload
  = ([Source.Sitemap_strategy],
     Py.Raised (Py.Exn Py.TypeError "object of type 'NoneType' has no len()")).
Proof.
  destruct (test_source_exception_ends_chain Examples.web_missing Examples.loc_texts
              Examples.rss_finds Examples.finds_nothing 0 Examples.payload
              "https://example.com/sitemap_index.xml"
              (Py.Exn Py.TypeError "object of type 'NoneType' has no len()") eq_refl)
    as (Hfirst & _).
  apply Hfirst. vm_compute. reflexivity.
Defined.

(** The feed finds an article after the sitemap strategy found none. *)
Lemma test_source_answer_shape_witness :
  exists answer : gmap string string,
    answer
    = <["method" := "rss"]>
        (<["url" := "https://example.com/from-feed"]>
           (<["source" := "https://example.com/feed"]> (<["title" := "From Feed"]> ∅)))
    /\ ((answer !! "error"%string = Some "Failed to detect article"%string
         /\ answer !! "method"%string = None)
        \/ (exists a,
              ((answer !! "method"%string = Some "sitemap"%string
                /\ (Source.test_source Examples.web_empty Examples.loc_texts
                      Examples.rss_finds Examples.finds_nothing 0 Examples.payload).1
                   = [Source.Sitemap_strategy])
               \/ (answer !! "method"%string = Some "rss"%string
                   /\ (Source.test_source Examples.web_empty Examples.loc_texts
                         Examples.rss_finds Examples.finds_nothing 0 Examples.payload).1
                      = [Source.Sitemap_strategy; Source.Rss_strategy])
               \/ (answer !! "method"%string = Some "html"%string
                   /\ (Source.test_source Examples.web_empty Examples.loc_texts
                         Examples.rss_finds Examples.finds_nothing 0 Examples.payload).1
                      = [Source.Sitemap_strategy; Source.Rss_strategy; Source.Html_strategy]))
              /\ answer !! "url"%string = Some (art_url a)
              /\ answer !! "source"%string = Some (art_source a)
              /\ answer !! "title"%string = Some (art_title a)
              /\ answer !! "error"%string = None)).
Proof.
  eexists. split; [reflexivity|].
  apply (test_source_answer_shape Examples.web_empty Examples.loc_texts Examples.rss_finds
           Examples.finds_nothing 0 Examples.payload).
  reflexivity.
Defined.

(* --------------------------------------------------------------------- *)
(** *** The CMS collaborator: what it raises and when it reports success  *)
(* --------------------------------------------------------------------- *)

Section CmsOutcomes.

Context {Json : Type}.
Variable client_get : string -> string * string -> HttpOutcome.
Variable json : string -> Py.result Json.

Abbreviation verify := (Cms.verify_connection Json client_get json).

(** A payload that lacks a key makes [verify_connection] raise
    [KeyError] for the first key missing in the order [url], [username],
    [password], whatever the endpoint would answer. *)
Theorem verify_connection_missing_key (payload : gmap string string) :
  (payload !! "url"%string = None ->
   verify payload = Py.Raised (Py.Exn Py.KeyError "'url'"))
  /\ (forall base_url,
        payload !! "url"%string = Some base_url ->
        payload !! "username"%string = None ->
        verify payload = Py.Raised (Py.Exn Py.KeyError "'username'"))
  /\ (forall base_url user,
        payload !! "url"%string = Some base_url ->
        payload !! "username"%string = Some user ->
        payload !! "password"%string = None ->
        verify payload = Py.Raised (Py.Exn Py.KeyError "'password'")).
Proof.
  unfold Cms.verify_connection, Py.dict_getitem. split_and!.
  - by intros ->.
  - by intros base_url -> ->.
  - by intros base_url user -> -> ->.
Qed.

(** [verify_connection] reports success only when the payload carries
    the three keys, the endpoint answered the category request with
    status 200, and the body decoded to the categories returned. *)
Theorem verify_success_only_on_200 (payload : gmap string string) (c : Json) :
  verify payload = Py.Returned (Cms.Verified c) ->
  exists base_url user app_password body,
    payload !! "url"%string = Some base_url
    /\ payload !! "username"%string = Some user
    /\ payload !! "password"%string = Some app_password
    /\ client_get (String.append base_url "/wp-json/wp/v2/categories") (user, app_password)
       = Response 200 body
    /\ json body = Py.Returned c.
Proof.
  unfold Cms.verify_connection, Py.dict_getitem.
  destruct (payload !! "url"%string) as [base_url|]; [|discriminate].
  destruct (payload !! "username"%string) as [user|]; [|discriminate].
  destruct (payload !! "password"%string) as [app_password|]; [|discriminate].
  simpl. unfold Cms.verify_try.
  destruct (client_get _ _) as [status_code body|e] eqn:Hget.
  - case_bool_decide as Hst; simpl.
    + subst status_code. unfold mbind, result_bind. simpl.
      destruct (json body) as [c'|e] eqn:Hj; simpl.
      * intros [= ->]. by exists base_url, user, app_password, body.
      * destruct (Py.is_Exception e); discriminate.
    + discriminate.
  - destruct (Py.is_Exception e); discriminate.
Qed.

(** The only exceptions [verify_connection] lets out are the [KeyError]
    of a missing payload key and exceptions that are not instances of
    [Exception]. *)
Theorem verify_connection_raises_only (payload : gmap string string) (e : Py.exn) :
  verify payload = Py.Raised e ->
  (exists key,
      key ∈ ["url"; "username"; "password"]%string
      /\ payload !! key = None
      /\ e = Py.Exn Py.KeyError (String.append "'" (String.append key "'")))
  \/ Py.is_Exception e = false.
Proof.
  unfold Cms.verify_connection, Py.dict_getitem.
  destruct (payload !! "url"%string) as [base_url|] eqn:Hu.
  2: { intros [= <-]. left. exists "url"%string. split_and!; [in_list | done..]. }
  destruct (payload !! "username"%string) as [user|] eqn:Hn.
  2: { intros [= <-]. left. exists "username"%string. split_and!; [in_list | done..]. }
  destruct (payload !! "password"%string) as [app_password|] eqn:Hp.
  2: { intros [= <-]. left. exists "password"%string. split_and!; [in_list | done..]. }
  simpl. destruct (Cms.verify_try _ _ _ _ _) as [r|e']; [discriminate|].
  destruct (Py.is_Exception e') eqn:He; [discriminate|].
  intros [= <-]. by right.
Qed.

End CmsOutcomes.

Lemma verify_success_only_on_200_witness :
  exists base_url user app_password body,
    Examples.cms_payload !! "url"%string = Some base_url
    /\ Examples.cms_payload !! "username"%string = Some user
    /\ Examples.cms_payload !! "password"%string = Some app_password
    /\ Examples.cms_ok (String.append base_url "/wp-json/wp/v2/categories") (user, app_password)
       = Response 200 body
    /\ Examples.json_decode body = Py.Returned [1; 2].
Proof.
  apply (verify_success_only_on_200 Examples.cms_ok Examples.json_decode
           Examples.cms_payload [1; 2]).
  reflexivity.
Defined.

Lemma verify_connection_raises_only_witness :
  (exists key,
      key ∈ ["url"; "username"; "password"]%string
      /\ (∅ : gmap string string) !! key = None
      /\ Py.Exn Py.KeyError "'url'"
         = Py.Exn Py.KeyError (String.append "'" (String.append key "'")))
  \/ Py.is_Exception (Py.Exn Py.KeyError "'url'") = false.
Proof.
  apply (verify_connection_raises_only Examples.cms_ok Examples.json_decode ∅).
  reflexivity.
Defined.

(* --------------------------------------------------------------------- *)
(** *** The rewrite collaborator with a credential                        *)
(* --------------------------------------------------------------------- *)




(* --------------------------------------------------------------------- *)
(** *** The worker and its socket                                         *)
(* --------------------------------------------------------------------- *)

(** The worker always starts with the "Starting worker" line.  When it
    completes it has yielded three lines, the last being "Worker
    complete", whether the fetch succeeded or raised an [Exception];
    it ends with an exception only when the fetch raised one that is not
    an [Exception], and then nothing follows the first line. *)
Theorem worker_lines (fetched : Py.result string) :
  let logs := (Worker.run_campaign_worker fetched).1 in
  let ended := (Worker.run_campaign_worker fetched).2 in
  head logs = Some "[INFO] Starting worker..."%string
  /\ (ended = Py.Returned () ->
      length logs = 3%nat /\ last logs = Some "[INFO] Worker complete"%string)
  /\ (forall e,
        ended = Py.Raised e ->
        fetched = Py.Raised e /\ Py.is_Exception e = false
        /\ logs = ["[INFO] Starting worker..."%string]).
Proof.
  unfold Worker.run_campaign_worker.
  destruct fetched as [html|e]; simpl; [split_and!; [done | done | discriminate]|].
  destruct (Py.is_Exception e) eqn:He; simpl; split_and!; try done.
  intros e' [= <-]. done.
Qed.

Lemma send_all_sends_only (ws_send_text : nat -> string -> Py.result unit)
    (n : nat) (logs : list string) :
  (Campaign.Close ∉ (Campaign.send_all ws_send_text n logs).1)
  /\ (Campaign.Accept ∉ (Campaign.send_all ws_send_text n logs).1).
Proof.
  revert n. induction logs as [|log rest IH]; intros n; simpl.
  - split; apply not_elem_of_nil.
  - destruct (ws_send_text n log); simpl; [|split; apply not_elem_of_nil].
    specialize (IH (S n)). destruct (Campaign.send_all ws_send_text (S n) rest) as [sent r].
    simpl in *. destruct IH as [IH1 IH2].
    split; intros [H | H]%elem_of_cons; try discriminate H; tauto.
Qed.

Lemma send_all_ok (ws_send_text : nat -> string -> Py.result unit)
    (n : nat) (logs : list string) :
  (forall i log, ws_send_text i log = Py.Returned ()) ->
  Campaign.send_all ws_send_text n logs = (map Campaign.SendText logs, Py.Returned ()).
Proof.
  intros Hok. revert n. induction logs as [|log rest IH]; intros n; simpl; [done|].
  by rewrite Hok, IH.
Qed.

Section SocketProperties.

Variable ws_accept : Py.result unit.
Variable ws_send_text : nat -> string -> Py.result unit.
Variable ws_close : Py.result unit.

Abbreviation run_campaign_socket :=
  (Campaign.run_campaign_socket ws_accept ws_send_text ws_close).

(** On a socket whose calls all complete, and with a fetch that returns
    or raises an [Exception], the handler accepts, forwards the worker's
    three lines in order, closes the socket and returns normally. *)
Theorem socket_forwards_lines_then_closes (fetched : Py.result string) :
  ws_accept = Py.Returned () ->
  (forall i log, ws_send_text i log = Py.Returned ()) ->
  ws_close = Py.Returned () ->
  (forall e, fetched = Py.Raised e -> Py.is_Exception e = true) ->
  run_campaign_socket fetched
  = (Campaign.Accept
       :: map Campaign.SendText (Worker.run_campaign_worker fetched).1
       ++ [Campaign.Close],
     Py.Returned ())
  /\ length (Worker.run_campaign_worker fetched).1 = 3%nat.
Proof.
  intros Ha Hs Hc Hf. unfold Campaign.run_campaign_socket. rewrite Ha.
  assert ((Worker.run_campaign_worker fetched).2 = Py.Returned ()
          /\ length (Worker.run_campaign_worker fetched).1 = 3%nat) as [He Hl].
  { unfold Worker.run_campaign_worker. destruct fetched as [html|e]; [done|].
    by rewrite (Hf e eq_refl). }
  destruct (Worker.run_campaign_worker fetched) as [logs ended]. simpl in *.
  rewrite send_all_ok by done. rewrite He, Hc. done.
Qed.

(** The handler closes the socket exactly when it returns normally: an
    exception of any call (or one the worker lets through) leaves the
    socket unclosed. *)
Theorem socket_closed_iff_returns (fetched : Py.result string) :
  Campaign.Close ∈ (run_campaign_socket fetched).1
  <-> (run_campaign_socket fetched).2 = Py.Returned ().
Proof.
  unfold Campaign.run_campaign_socket.
  destruct ws_accept as [[]|e]; simpl.
  2: { split; [by intros H%not_elem_of_nil | discriminate]. }
  destruct (Worker.run_campaign_worker fetched) as [logs ended].
  pose proof (send_all_sends_only ws_send_text 0 logs) as [Hnc _].
  destruct (Campaign.send_all ws_send_text 0 logs) as [sent r]. simpl in Hnc.
  assert (Campaign.Close ∉ Campaign.Accept :: sent) as Hno.
  { intros [H | H]%elem_of_cons; [discriminate H | done]. }
  destruct r as [[]|e]; simpl; [|split; [done | discriminate]].
  destruct ended as [[]|e]; simpl; [|split; [done | discriminate]].
  destruct ws_close as [[]|e]; simpl; [|split; [done | discriminate]].
  split; [done|]. intros _. right. apply elem_of_app. right. left.
Qed.

End SocketProperties.

Lemma socket_forwards_lines_then_closes_witness :
  Campaign.run_campaign_socket (Py.Returned ()) Examples.send_ok (Py.Returned ())
    (Py.Raised Examples.stage_failure)
  = ([Campaign.Accept;
      Campaign.SendText "[INFO] Starting worker...";
      Campaign.SendText "[ERROR] fetch failed";
      Campaign.SendText "[INFO] Worker complete";
      Campaign.Close], Py.Returned ()).
Proof.
  destruct (socket_forwards_lines_then_closes (Py.Returned ()) Examples.send_ok
              (Py.Returned ()) (Py.Raised Examples.stage_failure)) as [Hrun _].
  - reflexivity.
  - reflexivity.
  - reflexivity.
  - intros e [= <-]. reflexivity.
  - exact Hrun.
Defined.

(* --------------------------------------------------------------------- *)
(** *** The run executor: the other ways a run ends                       *)
(* --------------------------------------------------------------------- *)

Section RunOutcomes.

Variable time_time : nat -> Z.
Variable run_campaign_async :
  Main.Cfg -> string -> Main.World -> Py.result unit * Main.World.

Abbreviation background_run := (Main._background_run time_time run_campaign_async).

(** An exception that is not an [Exception] (a cancellation) is not
    turned into an ERROR event: [_background_run] still publishes
    "Run finished" and removes the entry, and then raises the same
    exception to the event loop. *)
Theorem background_run_reraises_cancellation (cfg : Main.Cfg) (run_id : string)
    (w executed : Main.World) (e : Py.exn) :
  run_campaign_async cfg run_id w = (Py.Raised e, executed) ->
  Py.is_Exception e = false ->
  exists final,
    background_run cfg run_id w = (Py.Raised e, final)
    /\ Main.trace final
       = Main.trace executed
         ++ [Main.Send run_id (Main.finished_event time_time executed); Main.Pop run_id]
    /\ Main.RUN_TASKS final !! run_id = None.
Proof.
  intros Hrun He. unfold Main._background_run. rewrite Hrun, He.
  rewrite background_finally_spec. eexists. split_and!; [reflexivity | reflexivity |].
  simpl. apply lookup_delete_eq.
Qed.

(** A run whose stage sequence returns publishes no ERROR event:
    [_background_run] reads the clock once, publishes "Run finished",
    removes the entry and returns normally. *)
Theorem background_run_success_is_quiet (cfg : Main.Cfg) (run_id : string)
    (w executed : Main.World) :
  run_campaign_async cfg run_id w = (Py.Returned (), executed) ->
  exists final,
    background_run cfg run_id w = (Py.Returned (), final)
    /\ Main.trace final
       = Main.trace executed
         ++ [Main.Send run_id (Main.finished_event time_time executed); Main.Pop run_id]
    /\ Main.clock_reads final = S (Main.clock_reads executed).
Proof.
  intros Hrun. unfold Main._background_run. rewrite Hrun.
  rewrite background_finally_spec. eexists. split_and!; reflexivity.
Qed.

(** With a clock that never runs backwards, the ERROR event of a failed
    run is stamped no later than the "Run finished" event that follows
    it. *)
Theorem error_stamp_not_after_finish (cfg : Main.Cfg) (run_id : string)
    (w executed : Main.World) (e : Py.exn) :
  (forall n, time_time n <= time_time (S n)) ->
  run_campaign_async cfg run_id w = (Py.Raised e, executed) ->
  Py.is_Exception e = true ->
  exists failed finished,
    Main.trace (background_run cfg run_id w).2
    = Main.trace executed
      ++ [Main.Send run_id failed; Main.Send run_id finished; Main.Pop run_id]
    /\ level failed = ERROR /\ level finished = INFO
    /\ ts failed <= ts finished.
Proof.
  intros Hclock Hrun He. unfold Main._background_run. rewrite Hrun, He.
  rewrite background_finally_spec, background_except_spec. simpl.
  eexists _, _. split_and!.
  - by rewrite <- app_assoc.
  - reflexivity.
  - reflexivity.
  - simpl. apply Hclock.
Qed.

(** [_background_run] removes only its own entry: every other run's
    entry is as the stage sequence left it. *)
Theorem background_run_keeps_other_runs (cfg : Main.Cfg) (run_id other : string)
    (w : Main.World) :
  other ≠ run_id ->
  Main.RUN_TASKS (background_run cfg run_id w).2 !! other
  = Main.RUN_TASKS (run_campaign_async cfg run_id w).2 !! other.
Proof.
  intros Hne.
  destruct (background_run_trace time_time run_campaign_async cfg run_id w)
    as (errors & t & _ & Hreg & _).
  rewrite Hreg. by apply lookup_delete_ne.
Qed.

End RunOutcomes.

Lemma background_run_reraises_cancellation_witness :
  exists final,
    Main._background_run Examples.clock Examples.cancelled_run ∅ "run-1" Examples.world0
    = (Py.Raised Examples.cancellation, final)
    /\ Main.trace final
       = [Main.Send "run-1" {| ts := 1700000000; level := INFO; text := "Run finished" |};
          Main.Pop "run-1"].
Proof.
  destruct (background_run_reraises_cancellation Examples.clock Examples.cancelled_run
              ∅ "run-1" Examples.world0 Examples.world0 Examples.cancellation
              eq_refl eq_refl) as (final & Hres & Htrace & _).
  exists final. split; [exact Hres | exact Htrace].
Defined.

Lemma background_run_success_is_quiet_witness :
  exists final,
    Main._background_run Examples.clock Examples.quiet_run ∅ "run-1" Examples.world0
    = (Py.Returned (), final)
    /\ Main.trace final
       = [Main.Send "run-1" {| ts := 1700000000; level := INFO; text := "Run finished" |};
          Main.Pop "run-1"].
Proof.
  destruct (background_run_success_is_quiet Examples.clock Examples.quiet_run
              ∅ "run-1" Examples.world0 Examples.world0 eq_refl)
    as (final & Hres & Htrace & _).
  exists final. split; [exact Hres | exact Htrace].
Defined.

Lemma clock_never_runs_backwards (n : nat) : Examples.clock n <= Examples.clock (S n).
Proof. unfold Examples.clock. lia. Qed.

Lemma error_stamp_not_after_finish_witness :
  exists failed finished,
    Main.trace (Main._background_run Examples.clock Examples.failing_run ∅ "run-1"
                  Examples.world0).2
    = [Main.Send "run-1" failed; Main.Send "run-1" finished; Main.Pop "run-1"]
    /\ level failed = ERROR /\ level finished = INFO
    /\ ts failed <= ts finished.
Proof.
  apply (error_stamp_not_after_finish Examples.clock Examples.failing_run ∅ "run-1"
           Examples.world0 Examples.world0 Examples.stage_failure
           clock_never_runs_backwards eq_refl eq_refl).
Defined.

Lemma background_run_keeps_other_runs_witness :
  Main.RUN_TASKS (Main._background_run Examples.clock Examples.quiet_run ∅ "run-1"
                    Examples.world0).2 !! "run-2"%string
  = Main.RUN_TASKS (Examples.quiet_run ∅ "run-1"%string Examples.world0).2 !! "run-2"%string.
Proof.
  apply (background_run_keeps_other_runs Examples.clock Examples.quiet_run ∅
           "run-1" "run-2" Examples.world0).
  discriminate.
Defined.

(* --------------------------------------------------------------------- *)
(** *** Starting runs, and a run from start to finish                     *)
(* --------------------------------------------------------------------- *)

Section StartOutcomes.

Variable time_time : nat -> Z.
Variable uuid4 : nat -> string.
Variable run_campaign_async :
  Main.Cfg -> string -> Main.World -> Py.result unit * Main.World.

Abbreviation start := (Main.run_campaign_async_endpoint uuid4).

(** Two start requests in a row get different run ids when the uuid
    source does not repeat itself; both tasks are then registered, and
    the event loop holds them in the order of the requests. *)
Theorem two_starts_get_distinct_runs (campaign1 campaign2 : Main.Cfg) (w : Main.World) :
  (forall i j, uuid4 i = uuid4 j -> i = j) ->
  let first := start campaign1 w in
  let second := start campaign2 first.2 in
  let task1 := Main.mkTask campaign1 (Main.run_id_of first.1) in
  let task2 := Main.mkTask campaign2 (Main.run_id_of second.1) in
  Main.run_id_of first.1 ≠ Main.run_id_of second.1
  /\ Main.RUN_TASKS second.2 !! Main.run_id_of first.1 = Some task1
  /\ Main.RUN_TASKS second.2 !! Main.run_id_of second.1 = Some task2
  /\ Main.loop_ready second.2 = Main.loop_ready w ++ [task1; task2].
Proof.
  intros Hinj first second task1 task2.
  subst first second task1 task2. unfold Main.run_campaign_async_endpoint. simpl.
  assert (uuid4 (Main.uuid_draws w) ≠ uuid4 (S (Main.uuid_draws w))) as Hne.
  { intros H%Hinj. lia. }
  split_and!.
  - exact Hne.
  - rewrite lookup_insert_ne by done. apply lookup_insert_eq.
  - apply lookup_insert_eq.
  - by rewrite <- app_assoc.
Qed.

(** A run from start to finish leaves the registry as it found it: when
    the identifier drawn is not yet a key and the stage sequence does not
    touch the registry, starting the run and then running its task to
    the end gives back the registry of before. *)
Theorem start_then_run_restores_registry (campaign : Main.Cfg) (w : Main.World) :
  Main.RUN_TASKS w !! uuid4 (Main.uuid_draws w) = None ->
  (forall cfg run_id w',
      Main.RUN_TASKS (run_campaign_async cfg run_id w').2 = Main.RUN_TASKS w') ->
  let started := start campaign w in
  let run_id := Main.run_id_of started.1 in
  Main.RUN_TASKS started.2 !! run_id = Some (Main.mkTask campaign run_id)
  /\ Main.RUN_TASKS
       (Main._background_run time_time run_campaign_async campaign run_id started.2).2
     = Main.RUN_TASKS w.
Proof.
  intros Hfresh Hkeep started run_id.
  destruct (background_run_trace time_time run_campaign_async campaign run_id started.2)
    as (errors & t & _ & Hreg & _).
  rewrite Hreg, Hkeep. subst started run_id.
  unfold Main.run_campaign_async_endpoint. simpl.
  split; [apply lookup_insert_eq|].
  rewrite delete_insert_eq. by apply delete_id.
Qed.

End StartOutcomes.

Lemma two_starts_get_distinct_runs_witness :
  Main.run_id_of (Main.run_campaign_async_endpoint Examples.uuids ∅ Examples.world0).1
  ≠ Main.run_id_of
      (Main.run_campaign_async_endpoint Examples.uuids ∅
         (Main.run_campaign_async_endpoint Examples.uuids ∅ Examples.world0).2).1.
Proof.
  destruct (two_starts_get_distinct_runs Examples.uuids ∅ ∅ Examples.world0
              uuids_never_repeat) as (Hne & _).
  exact Hne.
Defined.

Lemma start_then_run_restores_registry_witness :
  Main.RUN_TASKS
    (Main._background_run Examples.clock Examples.failing_run ∅
       (Main.run_id_of (Main.run_campaign_async_endpoint Examples.uuids ∅ Examples.world0).1)
       (Main.run_campaign_async_endpoint Examples.uuids ∅ Examples.world0).2).2
  = Main.RUN_TASKS Examples.world0.
Proof.
  destruct (start_then_run_restores_registry Examples.clock Examples.uuids
              Examples.failing_run ∅ Examples.world0) as (_ & Hback).
  - reflexivity.
  - reflexivity.
  - exact Hback.
Defined.

(* --------------------------------------------------------------------- *)
(** *** The log connection                                                *)
(* --------------------------------------------------------------------- *)

Lemma keep_alive_skips_text (texts : list string) (rest : list Main.ClientFrame) :
  Main.keep_alive (map Main.FrameText texts ++ rest) = Main.keep_alive rest.
Proof. induction texts as [|t texts IH]; [reflexivity | exact IH]. Qed.

(** What the client sends as text never matters to [websocket_logs].
    The handler ends at the first disconnect or error: on a disconnect,
    or an error that is an [Exception], it unsubscribes the handle it
    connected and returns normally; an error that is not an [Exception]
    is raised and the handle stays subscribed; and while only text
    arrives the subscription stays as [connect] made it. *)
Theorem websocket_logs_outcomes (run_id : string) (texts : list string)
    (rest : list Main.ClientFrame) (e : Py.exn) (w : Main.World) :
  let hd := (Hub.connect run_id (Main.ws_manager w)).1 in
  let connected := (Hub.connect run_id (Main.ws_manager w)).2 in
  let logs frames := Main.websocket_logs run_id (map Main.FrameText texts ++ frames) w in
  ((logs []).1 = (hd, Py.Returned ()) /\ Main.ws_manager (logs []).2 = connected)
  /\ ((logs (Main.FrameDisconnect :: rest)).1 = (hd, Py.Returned ())
      /\ Main.ws_manager (logs (Main.FrameDisconnect :: rest)).2
         = Hub.disconnect run_id hd connected)
  /\ ((logs (Main.FrameError e :: rest)).1
      = (hd, if Py.is_Exception e then Py.Returned () else Py.Raised e)
      /\ Main.ws_manager (logs (Main.FrameError e :: rest)).2
         = if Py.is_Exception e then Hub.disconnect run_id hd connected else connected).
Proof.
  intros hd connected logs. subst hd connected logs. simpl.
  unfold Main.websocket_logs. rewrite !keep_alive_skips_text. simpl.
  destruct (Hub.connect run_id (Main.ws_manager w)) as [hd hub]. simpl.
  split_and!; try reflexivity; destruct (Py.is_Exception e); reflexivity.
Qed.

Lemma title_of_hyphenated_witness :
  Discover.title_of
    (String.append "https://example.com/blog"
       (String "/" (Str.join "-" ["my"; "first"; "post"]%string)))
  = Str.join " " (map Str.capitalize ["my"; "first"; "post"]%string).
Proof.
  apply (title_of_hyphenated "https://example.com/blog" ["my"; "first"; "post"]%string).
  repeat constructor; discriminate.
Defined.
